(** * notion-js: the metric routing and session core of the SDK

    A shallow embedding of the two classes found in [src/api/index.ts], the
    [ApiClient] and the [Notion] class that drives it, and of
    [src/utils/errors.ts].

    The SDK talks to collaborators whose code is not part of the sources at
    hand (the Firebase client, the on-device websocket client, the OAuth
    scope validators, [getMetric]).  Every call the SDK issues to one of
    them is recorded, in order, in the [log] of the [World]; what a
    collaborator answers is read from the [World] as well. *)

From Stdlib Require Import ZArith QArith Qcanon List Bool Lia.
From stdpp Require Import base option list strings pretty gmap.

Local Open Scope string_scope.
Local Open Scope Z_scope.

(** ** JavaScript values the code branches on *)

(** A value that is either [undefined]/[null] or a string.  JavaScript's
    truthiness: [undefined], [null] and the empty string are falsy. *)
Definition truthy (v : option string) : bool :=
  match v with
  | Some s => negb (String.eqb s "")
  | None => false
  end.

(** The user object of the session; [uid] may be missing from it. *)
Record User := { uid : option string }.

(** Values that cross the public interface.  [enableLocalMode] takes one:
    the TypeScript signature asks for a boolean, the body re-checks with
    [typeof]. *)
Inductive JsValue :=
| JsBoolean (b : bool)
| JsString (s : string)
| JsNumber (q : Qc)
| JsUser (u : User)
| JsSkill (id : string)
| JsNull
| JsUndefined.

Definition typeof (v : JsValue) : string :=
  match v with
  | JsBoolean _ => "boolean"
  | JsString _ => "string"
  | JsNumber _ => "number"
  | JsUser _ => "object"
  | JsSkill _ => "object"
  | JsNull => "object"
  | JsUndefined => "undefined"
  end.

(** [!v] is [negb (js_truthy v)].  A boolean is its own truth value. *)
Definition js_truthy (v : JsValue) : bool :=
  match v with
  | JsBoolean b => b
  | JsString s => negb (String.eqb s "")
  | JsNumber q => negb (Qc_eq_bool q 0%Qc)
  | JsUser _ | JsSkill _ => true
  | JsNull | JsUndefined => false
  end.

(** Error objects.  [JsError m] is [new Error(m)], [JsTypeError m] is
    [new TypeError(m)].  [OAuthScopeError] is what the scope validators
    hand back.  [BackendError] is an error a collaborator rejected with. *)
Inductive Error :=
| JsError (message : string)
| JsTypeError (message : string)
| OAuthScopeError (scope : string)
| BackendError (message : string).

#[global] Instance Error_eq_dec : EqDecision Error.
Proof. solve_decision. Defined.

(** ** [src/utils/errors.ts] *)
Module errors.

Definition dquote : string := String (Ascii.ascii_of_nat 34) EmptyString.

Definition prefix : string := "Neurosity SDK: ".

Definition mustSelectDevice : Error :=
  JsError (prefix ++ "A device must be selected. Make sure to call "
                  ++ dquote ++ "notion.selectDevice()" ++ dquote).

Definition metricNotSupportedByModel (metric modelVersion : string) : Error :=
  JsError (prefix ++ metric ++ " not supported on model version "
                  ++ modelVersion ++ ". See docs.neurosity.co for more info.").

Definition actionNotSupportedByOSVersion (metric action osVersion : string) : Error :=
  JsError (prefix ++ metric ++ "/" ++ action ++ " not supported on OS version "
                  ++ osVersion ++ ". See docs.neurosity.co for more info.").

Definition locationNotFound (location modelVersion : string) : Error :=
  JsError (prefix ++ location ++ " location not supported on model version "
                  ++ modelVersion
                  ++ ". Check spelling or see docs.neurosity.co for more info.").

Definition exceededMaxItems (maxItems : nat) : Error :=
  JsError (prefix ++ "Maximum items in array is " ++ pretty maxItems).

End errors.

(** ** Options *)

Module Options.

(** The options after the defaults were merged in. *)
Record NotionOptions := {
  deviceId : option string;
  onDeviceSocketUrl : option string;
  timesync : bool;
  autoSelectDevice : bool;
  emulator : bool;
  emulatorHost : string;
  emulatorAuthPort : Z;
  emulatorDatabasePort : Z;
  emulatorFunctionsPort : Z;
  emulatorFirestorePort : Z;
  emulatorOptions : list (string * string)
}.

(** What the caller passes to [new Notion(options)]: every key may be
    left out. *)
Record UserOptions := {
  u_deviceId : option string;
  u_onDeviceSocketUrl : option string;
  u_timesync : option bool;
  u_autoSelectDevice : option bool;
  u_emulator : option bool;
  u_emulatorHost : option string;
  u_emulatorAuthPort : option Z;
  u_emulatorDatabasePort : option Z;
  u_emulatorFunctionsPort : option Z;
  u_emulatorFirestorePort : option Z;
  u_emulatorOptions : option (list (string * string))
}.

End Options.

Abbreviation NotionOptions := Options.NotionOptions.
Abbreviation UserOptions := Options.UserOptions.

(** [new Notion()] : [options = {}]. *)
Definition noOptions : UserOptions :=
  {| Options.u_deviceId := None; Options.u_onDeviceSocketUrl := None; Options.u_timesync := None;
     Options.u_autoSelectDevice := None; Options.u_emulator := None; Options.u_emulatorHost := None;
     Options.u_emulatorAuthPort := None; Options.u_emulatorDatabasePort := None;
     Options.u_emulatorFunctionsPort := None; Options.u_emulatorFirestorePort := None;
     Options.u_emulatorOptions := None |}.

Definition defaultOptions : NotionOptions :=
  {| Options.deviceId := None;
     Options.onDeviceSocketUrl := None;
     Options.timesync := false;
     Options.autoSelectDevice := true;
     Options.emulator := false;
     Options.emulatorHost := "localhost";
     Options.emulatorAuthPort := 9099;
     Options.emulatorDatabasePort := 9000;
     Options.emulatorFunctionsPort := 5001;
     Options.emulatorFirestorePort := 8080;
     Options.emulatorOptions := [] |}.

(** [{ ...defaultOptions, ...options }] *)
Definition spread (d : NotionOptions) (o : UserOptions) : NotionOptions :=
  {| Options.deviceId := match Options.u_deviceId o with Some x => Some x | None => Options.deviceId d end;
     Options.onDeviceSocketUrl :=
       match Options.u_onDeviceSocketUrl o with Some x => Some x | None => Options.onDeviceSocketUrl d end;
     Options.timesync := default (Options.timesync d) (Options.u_timesync o);
     Options.autoSelectDevice := default (Options.autoSelectDevice d) (Options.u_autoSelectDevice o);
     Options.emulator := default (Options.emulator d) (Options.u_emulator o);
     Options.emulatorHost := default (Options.emulatorHost d) (Options.u_emulatorHost o);
     Options.emulatorAuthPort := default (Options.emulatorAuthPort d) (Options.u_emulatorAuthPort o);
     Options.emulatorDatabasePort := default (Options.emulatorDatabasePort d) (Options.u_emulatorDatabasePort o);
     Options.emulatorFunctionsPort := default (Options.emulatorFunctionsPort d) (Options.u_emulatorFunctionsPort o);
     Options.emulatorFirestorePort := default (Options.emulatorFirestorePort d) (Options.u_emulatorFirestorePort o);
     Options.emulatorOptions := default (Options.emulatorOptions d) (Options.u_emulatorOptions o) |}.

(** An object together with its frozen flag.  [Object_freeze] sets the
    flag; a write to a property of a frozen object in strict code (class
    bodies are strict) throws a [TypeError] and changes nothing. *)
Record JsObject (A : Type) := { fields : A; frozen : bool }.
Arguments fields {A} _.
Arguments frozen {A} _.

Definition Object_freeze {A} (x : A) : JsObject A :=
  {| fields := x; frozen := true |}.

Definition assign {A} (f : A -> A) (o : JsObject A) : JsObject A + Error :=
  if frozen o
  then inr (JsTypeError "Cannot assign to read only property")
  else inl {| fields := f (fields o); frozen := false |}.

(** ** Clock synchronisation service *)

(** Modelled from the spec: the [Timesync] class ([src/timesync]) that
    [ApiClient.login] instantiates is not among the sources.  The model
    follows section 4.1 of the specification: every probe records the
    client send time, the time the device echoed and the client receive
    time; the offset of a probe is [deviceTime - (sendTime + receiveTime)/2];
    the service keeps a sliding window of probes and reports the offset of
    the probe with the smallest round trip; [now] is the local time plus
    that offset once the service is enabled, and the plain local time
    otherwise.  With no probe in the window the offset is taken to be 0. *)
Module Timesync.

(** Modelled from the spec: one probe, with the three times it records. *)
Record Sample := {
  sendTime : Z;
  deviceTime : Z;
  receiveTime : Z
}.

(** Modelled from the spec: the round trip of a probe. *)
Definition latency (s : Sample) : Z := receiveTime s - sendTime s.

(** Modelled from the spec: [deviceTime - (sendTime + receiveTime)/2]. *)
Definition estimate (s : Sample) : Qc :=
  (Qc_of_Z (deviceTime s)
   - (Qc_of_Z (sendTime s) + Qc_of_Z (receiveTime s)) / Qc_of_Z 2)%Qc.

(** Modelled from the spec: the state of the service. *)
Record t := {
  enabled : bool;
  windowSize : nat;
  window : list Sample   (* newest probe first *)
}.

(** Modelled from the spec: a service that was not enabled yet. *)
Definition create (size : nat) : t :=
  {| enabled := false; windowSize := size; window := [] |}.

(** Modelled from the spec: [enable()]. *)
Definition enable (ts : t) : t :=
  {| enabled := true; windowSize := windowSize ts; window := window ts |}.

(** Modelled from the spec: a probe came back; it enters the window, the
    oldest one leaves when the window is full.  A disabled service does not
    probe. *)
Definition probe (s : Sample) (ts : t) : t :=
  if enabled ts
  then {| enabled := true;
          windowSize := windowSize ts;
          window := take (windowSize ts) (s :: window ts) |}
  else ts.

(** Modelled from the spec: the probe with the smallest round trip; the
    newest one among equals. *)
Fixpoint best (l : list Sample) : option Sample :=
  match l with
  | [] => None
  | s :: rest =>
      match best rest with
      | None => Some s
      | Some b => if latency s <=? latency b then Some s else Some b
      end
  end.

(** Modelled from the spec: the offset reported, 0 before the first probe. *)
Definition offset (ts : t) : Qc :=
  match best (window ts) with
  | Some s => estimate s
  | None => 0%Qc
  end.

(** Modelled from the spec: [now()]. *)
Definition now (ts : t) (localTime : Z) : Qc :=
  if enabled ts
  then (Qc_of_Z localTime + offset ts)%Qc
  else Qc_of_Z localTime.

End Timesync.

(** ** Requests, actions and the calls made to collaborators *)

(** The [serverType] property of the two transport clients. *)
Inductive ServerType := FirebaseServer | WebsocketServer.

#[global] Instance ServerType_eq_dec : EqDecision ServerType.
Proof. solve_decision. Defined.

(** A metric subscription: [{ metric, labels, atomic }], and [serverType]
    once [metrics.subscribe] has added it. *)
Record Subscription := {
  metric : string;
  labels : list string;
  atomic : bool;
  serverType : option ServerType
}.

#[global] Instance Subscription_eq_dec : EqDecision Subscription.
Proof. solve_decision. Defined.

Definition request (m : string) (ls : list string) (a : bool) : Subscription :=
  {| metric := m; labels := ls; atomic := a; serverType := None |}.

(** What the caller hands to [training.record] and [training.stop]. *)
Record TrainingOptions := {
  t_metric : string;
  t_label : string;
  t_experimentId : option string;
  t_fit : option bool;
  t_baseline : option bool;
  t_timestamp : option Qc
}.

Inductive Message :=
| MarkerMessage (label : string) (timestamp : Qc)
| TrainingRecordMessage (fit baseline : bool) (timestamp : Qc)
    (training : TrainingOptions) (userId : option string)
| TrainingStopMessage (training : TrainingOptions)
| HapticsMessage (effects : gmap string (list string))
| EmptyMessage.

Record Action := {
  command : string;
  action : string;
  message : Message;
  responseRequired : bool;
  responseTimeout : option Z
}.

Record Credentials := { email : string; password : string }.

Record DeviceInfo := {
  di_deviceId : string;
  deviceNickname : string;
  modelVersion : string
}.

(** One entry per call that leaves the SDK. *)
Inductive Call :=
(* collaborators constructed *)
| new_FirebaseClient (o : NotionOptions)
| new_WebsocketClient (deviceId : option string) (socketUrl : string)
| new_Timesync
(* FirebaseClient *)
| firebase_dispatchAction (a : Action)
| firebase_disconnect
| firebase_getInfo
| firebase_login (c : Credentials)
| firebase_onStatus (callback : nat)
| firebase_offStatus (listener : nat)
| firebase_nextMetric (metricName : string) (metricValue : string)
| firebase_onMetric (s : Subscription) (callback : nat)
| firebase_subscribeToMetric (s : Subscription)
| firebase_unsubscribFromMetric (s : Subscription) (listener : nat)
| firebase_getSkill (bundleId : string)
(* WebsocketClient *)
| websocket_disconnect
| websocket_onMetric (s : Subscription) (callback : nat)
(* members of the newer ApiClient that only the Notion class shows *)
| api_member (name : string) (argument : string)
(* utils/metrics *)
| getMetric (s : Subscription)
(* api/https *)
| https_createOAuthURL (config : string)
| https_getOAuthToken (query : string)
(* console *)
| console_warn (text : string).

(** ** The world around the SDK *)

(** How a promise handed out by a collaborator settles. *)
Inductive Reply (A : Type) :=
| Fulfilled (a : A)
| Failed (e : Error).
Arguments Fulfilled {A} _.
Arguments Failed {A} _.

(** Modelled from the spec: the type of [api.userClaims] ([src/types/user])
    is not among the sources; section 3 of the specification makes it a set
    of capability tokens. *)
Definition UserClaims : Type := gset string.

(** Session state kept by the backend client and read through
    [api.userClaims], [api.didSelectDevice()] and [api.user]. *)
Record Session := {
  userClaims : UserClaims;
  selectedDevice : option DeviceInfo;
  user : option User
}.

Record World := {
  log : list Call;                          (* calls issued so far, oldest first *)
  clock : Z;                                (* Date.now() *)
  session : Session;
  socketUrl_reply : Reply (option string);  (* onceNamespace("context/socketUrl") *)
  login_reply : Reply (option User);        (* firebase.login(credentials) *)
  getSelectedDevice_reply : Reply (option DeviceInfo);
                                            (* api.getSelectedDevice() *)
  getSkill_reply : Reply (option string);   (* firebase.getSkill(bundleId): the
                                               id of the skill, or null *)
  timesync_timestamp : Qc                   (* this.timesync.timestamp *)
}.

Definition record_call (c : Call) (w : World) : World :=
  {| log := log w ++ [c];
     clock := clock w;
     session := session w;
     socketUrl_reply := socketUrl_reply w;
     login_reply := login_reply w;
     getSelectedDevice_reply := getSelectedDevice_reply w;
     getSkill_reply := getSkill_reply w;
     timesync_timestamp := timesync_timestamp w |}.

(** What a caller observes of one call into the SDK. *)
Inductive Outcome :=
| Throws (e : Error)        (* an exception leaves the call synchronously *)
| Returns (v : JsValue)     (* a plain value is returned *)
| Resolves (v : JsValue)    (* a promise fulfilled with [v] is returned *)
| Rejects (reason : option Error)      (* [Promise.reject(reason)] is returned;
                                          [None] is the reason [null] *)
| StreamError (reason : option Error)  (* [throwError(reason)]: an observable
                                          that errors *)
| Delegates (c : Call).     (* whatever collaborator call [c] returned *)

(** A method of an object of class [S]: it reads and updates [this] and the
    world, and yields a result. *)
Definition M (S A : Type) : Type := S * World -> A * (S * World).

Definition ret {S A} (a : A) : M S A := fun st => (a, st).

Definition bind {S A B} (m : M S A) (k : A -> M S B) : M S B :=
  fun st => let (a, st') := m st in k a st'.

Declare Scope method_scope.
Delimit Scope method_scope with method.
Notation "'let*' x := m 'in' k" := (bind m (fun x => k))
  (at level 10, x name, m at level 99, k at level 200) : method_scope.
Notation "m ;; k" := (bind m (fun _ => k))
  (at level 100, k at level 200, right associativity) : method_scope.

Definition this {S} : M S S := fun st => (fst st, st).

Definition update {S} (f : S -> S) : M S unit :=
  fun st => (tt, (f (fst st), snd st)).

Definition ask {S A} (f : World -> A) : M S A := fun st => (f (snd st), st).

Definition call {S} (c : Call) : M S unit :=
  fun st => (tt, (fst st, record_call c (snd st))).

(** The promise or stream returned by a collaborator call. *)
Definition delegate {S} (c : Call) : M S Outcome :=
  bind (call c) (fun _ => ret (Delegates c)).

(** A method of a member object run from the object that owns it. *)
Definition on_member {S T A} (get : S -> T) (set : T -> S -> S) (m : M T A) : M S A :=
  fun st =>
    let '(a, (t', w')) := m (get (fst st), snd st) in
    (a, (set t' (fst st), w')).

(** ** [ApiClient] ([src/api/index.ts]) *)

(** [Object.keys(metrics)] for the [metrics] table of the package
    [@neurosity/ipk]: the names of the metrics the device itself serves.
    The package is an external dependency; its table is a parameter. *)
Class Ipk := metrics_keys : list string.

Definition isNotionMetric `{Ipk} (metric : string) : bool :=
  bool_decide (metric ∈ metrics_keys).

Record WebsocketClient := {
  ws_deviceId : option string;
  ws_socketUrl : string
}.

(** The object [new Timesync(...)] returns. *)
Variant TimesyncClient := timesync_instance.

Module ApiClient.

Record t := {
  options : JsObject NotionOptions;
  onDeviceSocket : option WebsocketClient;
  timesync : option TimesyncClient
}.

Definition set_timesync (v : option TimesyncClient) (self : t) : t :=
  {| options := options self;
     onDeviceSocket := onDeviceSocket self;
     timesync := v |}.

(** [constructor(options)] *)
Definition new (opts : JsObject NotionOptions) (w : World) : t * World :=
  let o := fields opts in
  let w1 := record_call (new_FirebaseClient o) w in
  if truthy (Options.onDeviceSocketUrl o)
  then
    let url := default "" (Options.onDeviceSocketUrl o) in
    ({| options := opts;
        onDeviceSocket := Some {| ws_deviceId := Options.deviceId o;
                                  ws_socketUrl := url |};
        timesync := None |},
     record_call (new_WebsocketClient (Options.deviceId o) url) w1)
  else
    ({| options := opts; onDeviceSocket := None; timesync := None |}, w1).

(** [get actions().dispatch] *)
Definition actions_dispatch (a : Action) : M t Outcome :=
  delegate (firebase_dispatchAction a).

Definition disconnect : M t Outcome :=
  (let* self := this in
   match onDeviceSocket self with
   | Some _ => call websocket_disconnect
   | None => ret tt
   end ;;
   delegate firebase_disconnect)%method.

Definition getInfo : M t Outcome := delegate firebase_getInfo.

Definition login (credentials : Credentials) : M t Outcome :=
  (call (firebase_login credentials) ;;
   let* reply := ask login_reply in
   match reply with
   | Failed e => ret (Rejects (Some e))
   | Fulfilled user =>
       let* self := this in
       (if match user with
           | Some _ => Options.timesync (fields (options self))
           | None => false
           end
        then (call new_Timesync ;; update (set_timesync (Some timesync_instance)))
        else ret tt) ;;
       ret (Resolves (match user with Some u => JsUser u | None => JsNull end))
   end)%method.

Definition onStatus (callback : nat) : M t Outcome :=
  delegate (firebase_onStatus callback).

Definition offStatus (listener : nat) : M t Outcome :=
  (call (firebase_offStatus listener) ;; ret (Returns JsUndefined))%method.

(** [get metrics()] *)
Definition shouldRerouteToDevice `{Ipk} (self : t) (metric : string) : bool :=
  match onDeviceSocket self with
  | Some _ => isNotionMetric metric
  | None => false
  end.

Definition metrics_next (metricName metricValue : string) : M t Outcome :=
  (call (firebase_nextMetric metricName metricValue) ;;
   ret (Returns JsUndefined))%method.

Definition metrics_on `{Ipk} (subscription : Subscription) (callback : nat)
  : M t Outcome :=
  (let* self := this in
   if shouldRerouteToDevice self (metric subscription)
   then delegate (websocket_onMetric subscription callback)
   else delegate (firebase_onMetric subscription callback))%method.

Definition metrics_subscribe `{Ipk} (subscription : Subscription) : M t Outcome :=
  (let* self := this in
   let routed :=
     if shouldRerouteToDevice self (metric subscription)
     then WebsocketServer    (* this.onDeviceSocket.serverType *)
     else FirebaseServer     (* this.firebase.serverType *) in
   delegate (firebase_subscribeToMetric
               {| metric := metric subscription;
                  labels := labels subscription;
                  atomic := atomic subscription;
                  serverType := Some routed |}))%method.

Definition metrics_unsubscribe (subscription : Subscription) (listener : nat)
  : M t Outcome :=
  (call (firebase_unsubscribFromMetric subscription listener) ;;
   ret (Returns JsUndefined))%method.

(** [get skills().get] *)
Definition skills_get (bundleId : string) : M t Outcome :=
  delegate (firebase_getSkill bundleId).

(** [get timestamp()]: with [options.timesync] set and no [Timesync]
    object yet (no login), reading [this.timesync.timestamp] throws. *)
Definition timestamp : M t (Qc + Error) :=
  (let* self := this in
   if Options.timesync (fields (options self))
   then
     match timesync self with
     | Some _ => let* v := ask timesync_timestamp in ret (inl v)
     | None => ret (inr (JsTypeError "Cannot read properties of undefined"))
     end
   else
     let* now := ask clock in ret (inl (Qc_of_Z now)))%method.

End ApiClient.

(** ** Helpers the [Notion] class imports *)

(** The modules under [utils/] other than [utils/errors] are not among the
    sources; the [Notion] class is written against their interface.  A
    validator of [utils/oauth] returns the pair [[hasOAuthError, OAuthError]],
    the error being [null] ([None]) when there is none. *)
Class OAuth := {
  validateOAuthScopeForFunctionName : UserClaims -> string -> bool * option Error;
  validateOAuthScopeForAction : UserClaims -> Action -> bool * option Error
}.

(** [utils/subscription], [utils/platform] and [utils/is-node].  The haptic
    request of a model is an object from motor location to queued effects. *)
Class Utils := {
  getLabels : string -> list string;
  MODEL_VERSION_1 : string;
  supportsHaptics : string -> bool;
  supportsAccel : string -> bool;
  getPlatformHapticMotors : string -> gmap string (list string);
  isNode : bool
}.

(** An rxjs [BehaviorSubject]: the current value, and the values pushed
    through [next] since it was created, oldest first. *)
Record BehaviorSubject (A : Type) := { value : A; emitted : list A }.
Arguments value {A} _.
Arguments emitted {A} _.

Definition BehaviorSubject_new {A} (initial : A) : BehaviorSubject A :=
  {| value := initial; emitted := [] |}.

Definition next {A} (v : A) (s : BehaviorSubject A) : BehaviorSubject A :=
  {| value := v; emitted := emitted s ++ [v] |}.

(** ** The [Notion] class *)
Module Notion.

Record t := {
  options : JsObject NotionOptions;
  api : ApiClient.t;
  _localModeSubject : BehaviorSubject bool
}.

Definition set_api (a : ApiClient.t) (self : t) : t :=
  {| options := options self; api := a;
     _localModeSubject := _localModeSubject self |}.

Definition set_localModeSubject (s : BehaviorSubject bool) (self : t) : t :=
  {| options := options self; api := api self; _localModeSubject := s |}.

(** [constructor(options = {})] *)
Definition new (opts : UserOptions) (w : World) : t * World :=
  let frozen_options := Object_freeze (spread defaultOptions opts) in
  let (client, w') := ApiClient.new frozen_options w in
  ({| options := frozen_options;
      api := client;
      _localModeSubject := BehaviorSubject_new false |}, w').

(** [this.api.<method>] for the methods of the [ApiClient] at hand. *)
Definition via_api {A} (m : M ApiClient.t A) : M t A :=
  on_member api set_api m.

(** [this.api.didSelectDevice()], [this.api.userClaims], [this.api.user] *)
Definition didSelectDevice : M t bool :=
  ask (fun w => match selectedDevice (session w) with
                | Some _ => true
                | None => false
                end).

Definition api_userClaims : M t UserClaims :=
  ask (fun w => userClaims (session w)).

Definition api_user : M t (option User) :=
  ask (fun w => user (session w)).

(** [this._localModeSubject.next(v)] *)
Definition localModeSubject_next (v : bool) : M t unit :=
  update (fun self => set_localModeSubject (next v (_localModeSubject self)) self).

Section Methods.
Context `{Ipk} `{OAuth} `{Utils}.

(** The opening of most methods:
    [[
    const [hasOAuthError, OAuthError] =
      validateOAuthScopeForFunctionName(this.api.userClaims, name);
    if (hasOAuthError) { return fail(OAuthError); }
    ]]
    with [fail] one of [Promise.reject] and [throwError]. *)
Definition withScope (name : string) (fail : option Error -> Outcome)
    (body : M t Outcome) : M t Outcome :=
  (let* claims := api_userClaims in
   let '(hasOAuthError, OAuthError) :=
     validateOAuthScopeForFunctionName claims name in
   if hasOAuthError then ret (fail OAuthError) else body)%method.

(** [if (!this.api.didSelectDevice()) return Promise.reject(errors.mustSelectDevice)] *)
Definition withDevice (body : M t Outcome) : M t Outcome :=
  (let* selected := didSelectDevice in
   if negb selected
   then ret (Rejects (Some errors.mustSelectDevice))
   else body)%method.

Definition login (credentials : Credentials) : M t Outcome :=
  via_api (ApiClient.login credentials).

Definition logout : M t Outcome := delegate (api_member "logout" "").

Definition addDevice (deviceId : string) : M t Outcome :=
  withScope "addDevice" Rejects (delegate (api_member "addDevice" deviceId)).

Definition removeDevice (deviceId : string) : M t Outcome :=
  withScope "removeDevice" Rejects
    (delegate (api_member "removeDevice" deviceId)).

Definition transferDevice (options : string) : M t Outcome :=
  withScope "transferDevice" Rejects
    (delegate (api_member "transferDevice" options)).

Definition onUserDevicesChange : M t Outcome :=
  withScope "onUserDevicesChange" StreamError
    (delegate (api_member "onUserDevicesChange" "")).

Definition onUserClaimsChange : M t Outcome :=
  delegate (api_member "onUserClaimsChange" "").

Definition getDevices : M t Outcome := delegate (api_member "getDevices" "").

Definition selectDevice (deviceSelector : string) : M t Outcome :=
  withScope "selectDevice" Rejects
    (delegate (api_member "selectDevice" deviceSelector)).

Definition getSelectedDevice : M t Outcome :=
  withScope "getSelectedDevice" Rejects
    (delegate (api_member "getSelectedDevice" "")).

Definition getInfo : M t Outcome :=
  withDevice (withScope "getInfo" Rejects (via_api ApiClient.getInfo)).

Definition onDeviceChange : M t Outcome :=
  withScope "onDeviceChange" StreamError
    (delegate (api_member "onDeviceChange" "")).

Definition localModeNotSupported : Error :=
  JsError (errors.prefix ++
    "Your device's OS does not support localMode. Try updating to the latest OS.").

Definition enableLocalMode (shouldEnable : JsValue) : M t Outcome :=
  if negb (String.eqb (typeof shouldEnable) "boolean")
  then ret (Rejects (Some (JsTypeError "enableLocalMode can only accept a boolean")))
  else if negb (js_truthy shouldEnable)
  then
    (localModeSubject_next (js_truthy shouldEnable) ;;
     ret (Resolves shouldEnable))%method
  else
    (call (api_member "onceNamespace" "context/socketUrl") ;;
     let* reply := ask socketUrl_reply in
     let '(localModeSupported, error) :=
       match reply with
       | Fulfilled socketUrl =>
           if negb (truthy socketUrl)
           then (false, Some localModeNotSupported)
           else (true, None)
       | Failed error => (false, Some error)
       end in
     if negb localModeSupported
     then ret (Rejects error)
     else
       localModeSubject_next (js_truthy shouldEnable) ;;
       ret (Resolves shouldEnable))%method.

Definition disconnect : M t Outcome := via_api ApiClient.disconnect.

Definition dispatchAction (a : Action) : M t Outcome :=
  withDevice
    (let* claims := api_userClaims in
     let '(hasOAuthError, OAuthError) := validateOAuthScopeForAction claims a in
     if hasOAuthError
     then ret (Rejects OAuthError)
     else via_api (ApiClient.actions_dispatch a))%method.

Definition addMarker (label : option string) : M t Outcome :=
  (let* selected := didSelectDevice in
   if negb selected
   then ret (Throws errors.mustSelectDevice)
   else if negb (truthy label)
   then ret (Throws (JsError (errors.prefix ++ "A label is required for addMarker")))
   else
     let* stamp := via_api ApiClient.timestamp in
     match stamp with
     | inr e => ret (Throws e)
     | inl timestamp =>
         dispatchAction
           {| command := "marker";
              action := "add";
              message := MarkerMessage (default "" label) timestamp;
              responseRequired := false;
              responseTimeout := None |}
     end)%method.

(** [label ? [label, ...otherLabels] : []] *)
Definition labelsOf (label : option string) (otherLabels : list string)
  : list string :=
  if truthy label then default "" label :: otherLabels else [].

Definition brainwaves (label : option string) (otherLabels : list string)
  : M t Outcome :=
  withScope "brainwaves" StreamError
    (delegate (getMetric
       {| metric := "brainwaves";
          labels := labelsOf label otherLabels;
          atomic := false;
          serverType := None |})).

Definition calm : M t Outcome :=
  withScope "calm" StreamError
    (delegate (getMetric
       {| metric := "awareness"; labels := ["calm"]; atomic := false;
          serverType := None |})).

Definition signalQuality : M t Outcome :=
  let name := "signalQuality" in
  withScope name StreamError
    (delegate (getMetric
       {| metric := name; labels := getLabels name; atomic := true;
          serverType := None |})).

Definition settings : M t Outcome :=
  withScope "settings" StreamError
    (delegate (api_member "observeNamespace" "settings")).

Definition focus : M t Outcome :=
  withScope "focus" StreamError
    (delegate (getMetric
       {| metric := "awareness"; labels := ["focus"]; atomic := false;
          serverType := None |})).

Definition kinesis (label : option string) (otherLabels : list string)
  : M t Outcome :=
  let name := "kinesis" in
  withScope name StreamError
    (delegate (getMetric
       {| metric := name; labels := labelsOf label otherLabels;
          atomic := false; serverType := None |})).

Definition predictions (label : option string) (otherLabels : list string)
  : M t Outcome :=
  let name := "predictions" in
  withScope name StreamError
    (delegate (getMetric
       {| metric := name; labels := labelsOf label otherLabels;
          atomic := false; serverType := None |})).

Definition status : M t Outcome :=
  withScope "status" StreamError (delegate (api_member "status" "")).

Definition changeSettings (settings : string) : M t Outcome :=
  withDevice
    (withScope "changeSettings" Rejects
       (delegate (api_member "changeSettings" settings))).

(** [get training()]: the three functions return nothing; the promise
    of [dispatch] is dropped. *)
Definition training_record (training : TrainingOptions) : M t Outcome :=
  (let* selected := didSelectDevice in
   if negb selected
   then ret (Throws errors.mustSelectDevice)
   else
     let* u := api_user in
     let userId :=
       match u with
       | Some u => uid u      (* "uid" in user ? user.uid : null *)
       | None => None
       end in
     let* stamp := via_api ApiClient.timestamp in
     match stamp with
     | inr e => ret (Throws e)
     | inl timestamp =>
         (* { fit: false, baseline: false, timestamp, ...training, userId } *)
         via_api (ApiClient.actions_dispatch
           {| command := "training";
              action := "record";
              message :=
                TrainingRecordMessage
                  (default false (t_fit training))
                  (default false (t_baseline training))
                  (default timestamp (t_timestamp training))
                  training userId;
              responseRequired := false;
              responseTimeout := None |}) ;;
         ret (Returns JsUndefined)
     end)%method.

Definition training_stop (training : TrainingOptions) : M t Outcome :=
  (let* selected := didSelectDevice in
   if negb selected
   then ret (Throws errors.mustSelectDevice)
   else
     via_api (ApiClient.actions_dispatch
       {| command := "training";
          action := "stop";
          message := TrainingStopMessage training;
          responseRequired := false;
          responseTimeout := None |}) ;;
     ret (Returns JsUndefined))%method.

Definition training_stopAll : M t Outcome :=
  (let* selected := didSelectDevice in
   if negb selected
   then ret (Throws errors.mustSelectDevice)
   else
     via_api (ApiClient.actions_dispatch
       {| command := "training";
          action := "stopAll";
          message := EmptyMessage;
          responseRequired := false;
          responseTimeout := None |}) ;;
     ret (Returns JsUndefined))%method.

Definition goOffline : M t Outcome :=
  (call (api_member "goOffline" "") ;; ret (Returns JsUndefined))%method.

Definition goOnline : M t Outcome :=
  (call (api_member "goOnline" "") ;; ret (Returns JsUndefined))%method.

Definition getTimesyncOffset : M t Outcome :=
  (let* self := this in
   let timesync := Options.timesync (fields (options self)) in
   (if negb timesync
    then call (console_warn
                 "getTimesyncOffset() requires options.timesync to be true.")
    else ret tt) ;;
   if timesync
   then delegate (api_member "getTimesyncOffset" "")
   else ret (Returns (JsNumber 0%Qc)))%method.
(** [__getApp()] *)
Definition getApp : M t Outcome := delegate (api_member "__getApp" "").

Definition onAuthStateChanged : M t Outcome :=
  delegate (api_member "onAuthStateChanged" "").

(** [socketUrl()]: [of(onDeviceSocketUrl)], or the namespace of the
    device. *)
Definition socketUrl : M t Outcome :=
  (let* self := this in
   let onDeviceSocketUrl := Options.onDeviceSocketUrl (fields (options self)) in
   if truthy onDeviceSocketUrl
   then ret (Returns (JsString (default "" onDeviceSocketUrl)))
   else delegate (api_member "observeNamespace" "context/socketUrl"))%method.

(** [await this.getSelectedDevice()], as the methods of the class that
    wait for it see it: the device the promise is fulfilled with, or the
    reason it is rejected with. *)
Definition getSelectedDevice_awaited : M t (option DeviceInfo + option Error) :=
  (let* claims := api_userClaims in
   let '(hasOAuthError, OAuthError) :=
     validateOAuthScopeForFunctionName claims "getSelectedDevice" in
   if hasOAuthError
   then ret (inr OAuthError)
   else
     call (api_member "getSelectedDevice" "") ;;
     let* reply := ask getSelectedDevice_reply in
     ret match reply with
         | Fulfilled device => inl device
         | Failed e => inr (Some e)
         end)%method.

(** The loop of [haptics]:
    [[
    for (const key in effects) {
      if (!Object.keys(newPlatformHapticRequest).includes(key)) reject locationNotFound
      if (effects[key].length > maxItems) reject exceededMaxItems
      newPlatformHapticRequest[key] = effects[key];
    }
    ]]
    The caller's [effects] object is the list of its entries, in the order
    [for ... in] visits them. *)
Fixpoint fillHapticRequest (modelVersion : string) (maxItems : nat)
    (effects : list (string * list string))
    (newPlatformHapticRequest : gmap string (list string))
  : gmap string (list string) + Error :=
  match effects with
  | [] => inl newPlatformHapticRequest
  | (key, singleMotorEffects) :: rest =>
      if negb (bool_decide (key ∈ dom newPlatformHapticRequest))
      then inr (errors.locationNotFound key modelVersion)
      else if (maxItems <? length singleMotorEffects)%nat
      then inr (errors.exceededMaxItems maxItems)
      else fillHapticRequest modelVersion maxItems rest
             (<[key := singleMotorEffects]> newPlatformHapticRequest)
  end.

Definition haptics (effects : list (string * list string)) : M t Outcome :=
  let name := "haptics" in
  withDevice
    (let* awaited := getSelectedDevice_awaited in
     match awaited with
     | inr reason => ret (Rejects reason)
     | inl None =>
         ret (Rejects (Some (JsTypeError "Cannot read properties of undefined")))
     | inl (Some selectedDevice) =>
         let modelVersion := modelVersion selectedDevice in
         if negb (supportsHaptics modelVersion)
         then ret (Rejects (Some (errors.metricNotSupportedByModel name modelVersion)))
         else
           match fillHapticRequest modelVersion 7 effects
                   (getPlatformHapticMotors modelVersion) with
           | inr e => ret (Rejects (Some e))
           | inl newPlatformHapticRequest =>
               dispatchAction
                 {| command := name;
                    action := "queue";
                    message := HapticsMessage newPlatformHapticRequest;
                    responseRequired := true;
                    responseTimeout := Some 1000 |}
           end
     end)%method.

(** [accelerometer()], as the subscriber of the returned stream sees it:
    [this.getSelectedDevice()] is called at once, the rest runs when its
    promise settles. *)
Definition accelerometer : M t Outcome :=
  let name := "accelerometer" in
  withScope name StreamError
    (let* awaited := getSelectedDevice_awaited in
     match awaited with
     | inr reason => ret (StreamError reason)
     | inl selectedDevice =>
         (* selectedDevice?.modelVersion || platform.MODEL_VERSION_1 *)
         let modelVersion :=
           match selectedDevice with
           | Some d => if String.eqb (modelVersion d) ""
                       then MODEL_VERSION_1
                       else modelVersion d
           | None => MODEL_VERSION_1
           end in
         if negb (supportsAccel modelVersion)
         then ret (StreamError (Some (errors.metricNotSupportedByModel name modelVersion)))
         else delegate (getMetric
                {| metric := name; labels := getLabels name; atomic := true;
                   serverType := None |})
     end)%method.

Definition createAccount (credentials : Credentials) : M t Outcome :=
  delegate (api_member "createAccount" (email credentials)).

Definition deleteAccount : M t Outcome := delegate (api_member "deleteAccount" "").

Definition createCustomToken : M t Outcome :=
  delegate (api_member "createCustomToken" "").

Definition createOAuthURL (config : string) : M t Outcome :=
  if negb isNode
  then ret (Rejects (Some (JsError (errors.prefix ++
         "the createOAuthURL method must be used on the server side (node.js) for security reasons."))))
  else delegate (https_createOAuthURL config).

Definition getOAuthToken (query : string) : M t Outcome :=
  if negb isNode
  then ret (Rejects (Some (JsError (errors.prefix ++
         "the getOAuthToken method must be used on the server side (node.js) for security reasons."))))
  else delegate (https_getOAuthToken query).

Definition removeOAuthAccess : M t Outcome :=
  delegate (api_member "removeOAuthAccess" "").

(** [skill(bundleId)]: the promise of the skill instance.  The streams its
    [metric] function builds call [metrics.subscribe], [metrics.on] and
    [metrics.unsubscribe] of the client when they are subscribed to. *)
Definition skill (bundleId : string) : M t Outcome :=
  withDevice
    (via_api (ApiClient.skills_get bundleId) ;;
     let* reply := ask getSkill_reply in
     match reply with
     | Failed e => ret (Rejects (Some e))
     | Fulfilled None =>
         ret (Rejects (Some (JsError (errors.prefix ++ "Access denied for: "
                ++ bundleId ++ ". Make sure the skill is installed."))))
     | Fulfilled (Some id) => ret (Resolves (JsSkill id))
     end)%method.

Definition onUserExperiments : M t Outcome :=
  delegate (api_member "onUserExperiments" "").

Definition deleteUserExperiment (experimentId : string) : M t Outcome :=
  delegate (api_member "deleteUserExperiment" experimentId).

End Methods.

End Notion.

(** ** Calls into an instance *)

(** The operations a caller can invoke on a [Notion] instance, and on the
    [ApiClient] behind it ([getMetric] and [skill] receive [this.api] and
    call its [metrics] directly).  Every public member of the two classes is
    here, and the private [dispatchAction]; [login] and [disconnect] of the
    client are what the methods of the same name on the instance run.  Left
    out are [isLocalMode] and [getHapticEffects], which hand out a view of
    the local-mode subject and a constant catalogue, and the private
    [_getMetricDependencies]. *)
Inductive Operation :=
| op_login (credentials : Credentials)
| op_logout
| op_addDevice (deviceId : string)
| op_removeDevice (deviceId : string)
| op_transferDevice (options : string)
| op_onUserDevicesChange
| op_onUserClaimsChange
| op_getDevices
| op_selectDevice (deviceSelector : string)
| op_getSelectedDevice
| op_getInfo
| op_onDeviceChange
| op_enableLocalMode (shouldEnable : JsValue)
| op_disconnect
| op_dispatchAction (a : Action)
| op_addMarker (label : option string)
| op_brainwaves (label : option string) (otherLabels : list string)
| op_calm
| op_signalQuality
| op_settings
| op_focus
| op_kinesis (label : option string) (otherLabels : list string)
| op_predictions (label : option string) (otherLabels : list string)
| op_status
| op_changeSettings (settings : string)
| op_training_record (training : TrainingOptions)
| op_training_stop (training : TrainingOptions)
| op_training_stopAll
| op_goOffline
| op_goOnline
| op_getTimesyncOffset
| op_getApp
| op_onAuthStateChanged
| op_socketUrl
| op_haptics (effects : list (string * list string))
| op_accelerometer
| op_createAccount (credentials : Credentials)
| op_deleteAccount
| op_createCustomToken
| op_createOAuthURL (config : string)
| op_getOAuthToken (query : string)
| op_removeOAuthAccess
| op_skill (bundleId : string)
| op_onUserExperiments
| op_deleteUserExperiment (experimentId : string)
| op_api_actions_dispatch (a : Action)
| op_api_getInfo
| op_api_metrics_next (metricName metricValue : string)
| op_api_metrics_on (subscription : Subscription) (callback : nat)
| op_api_metrics_subscribe (subscription : Subscription)
| op_api_metrics_unsubscribe (subscription : Subscription) (listener : nat)
| op_api_skills_get (bundleId : string)
| op_api_onStatus (callback : nat)
| op_api_offStatus (listener : nat)
| op_api_timestamp.

Section Invoke.
Context `{Ipk} `{OAuth} `{Utils}.

Definition invoke (op : Operation) : M Notion.t Outcome :=
  match op with
  | op_login c => Notion.login c
  | op_logout => Notion.logout
  | op_addDevice d => Notion.addDevice d
  | op_removeDevice d => Notion.removeDevice d
  | op_transferDevice o => Notion.transferDevice o
  | op_onUserDevicesChange => Notion.onUserDevicesChange
  | op_onUserClaimsChange => Notion.onUserClaimsChange
  | op_getDevices => Notion.getDevices
  | op_selectDevice s => Notion.selectDevice s
  | op_getSelectedDevice => Notion.getSelectedDevice
  | op_getInfo => Notion.getInfo
  | op_onDeviceChange => Notion.onDeviceChange
  | op_enableLocalMode v => Notion.enableLocalMode v
  | op_disconnect => Notion.disconnect
  | op_dispatchAction a => Notion.dispatchAction a
  | op_addMarker l => Notion.addMarker l
  | op_brainwaves l ls => Notion.brainwaves l ls
  | op_calm => Notion.calm
  | op_signalQuality => Notion.signalQuality
  | op_settings => Notion.settings
  | op_focus => Notion.focus
  | op_kinesis l ls => Notion.kinesis l ls
  | op_predictions l ls => Notion.predictions l ls
  | op_status => Notion.status
  | op_changeSettings s => Notion.changeSettings s
  | op_training_record t => Notion.training_record t
  | op_training_stop t => Notion.training_stop t
  | op_training_stopAll => Notion.training_stopAll
  | op_goOffline => Notion.goOffline
  | op_goOnline => Notion.goOnline
  | op_getTimesyncOffset => Notion.getTimesyncOffset
  | op_getApp => Notion.getApp
  | op_onAuthStateChanged => Notion.onAuthStateChanged
  | op_socketUrl => Notion.socketUrl
  | op_haptics effects => Notion.haptics effects
  | op_accelerometer => Notion.accelerometer
  | op_createAccount c => Notion.createAccount c
  | op_deleteAccount => Notion.deleteAccount
  | op_createCustomToken => Notion.createCustomToken
  | op_createOAuthURL c => Notion.createOAuthURL c
  | op_getOAuthToken q => Notion.getOAuthToken q
  | op_removeOAuthAccess => Notion.removeOAuthAccess
  | op_skill b => Notion.skill b
  | op_onUserExperiments => Notion.onUserExperiments
  | op_deleteUserExperiment e => Notion.deleteUserExperiment e
  | op_api_actions_dispatch a => Notion.via_api (ApiClient.actions_dispatch a)
  | op_api_getInfo => Notion.via_api ApiClient.getInfo
  | op_api_metrics_next n v => Notion.via_api (ApiClient.metrics_next n v)
  | op_api_metrics_on s cb => Notion.via_api (ApiClient.metrics_on s cb)
  | op_api_metrics_subscribe s => Notion.via_api (ApiClient.metrics_subscribe s)
  | op_api_metrics_unsubscribe s l =>
      Notion.via_api (ApiClient.metrics_unsubscribe s l)
  | op_api_skills_get b => Notion.via_api (ApiClient.skills_get b)
  | op_api_onStatus cb => Notion.via_api (ApiClient.onStatus cb)
  | op_api_offStatus l => Notion.via_api (ApiClient.offStatus l)
  | op_api_timestamp =>
      bind (Notion.via_api ApiClient.timestamp)
           (fun stamp => ret match stamp with
                             | inl q => Returns (JsNumber q)
                             | inr e => Throws e
                             end)
  end.

(** A caller's session: operations one after the other. *)
Fixpoint run (ops : list Operation) : M Notion.t (list Outcome) :=
  match ops with
  | [] => ret []
  | op :: rest =>
      bind (invoke op) (fun o => bind (run rest) (fun os => ret (o :: os)))
  end.

(** The instance built by [new Notion(opts)] in world [w], after the
    operations [ops]. *)
Definition instance_after (opts : UserOptions) (w : World) (ops : list Operation)
  : Notion.t * World :=
  snd (run ops (Notion.new opts w)).

End Invoke.

(** ** Reading the log *)

(** The subscriptions created at the backend: one per
    [firebase.subscribeToMetric] call. *)
Fixpoint created (l : list Call) : list Subscription :=
  match l with
  | [] => []
  | firebase_subscribeToMetric s :: rest => s :: created rest
  | _ :: rest => created rest
  end.

(** How many on-device socket clients were constructed. *)
Fixpoint sockets_constructed (l : list Call) : nat :=
  match l with
  | [] => 0
  | new_WebsocketClient _ _ :: rest => S (sockets_constructed rest)
  | _ :: rest => sockets_constructed rest
  end.

(** The warnings written to the console. *)
Fixpoint warnings (l : list Call) : list string :=
  match l with
  | [] => []
  | console_warn text :: rest => text :: warnings rest
  | _ :: rest => warnings rest
  end.

(** The local-mode flag a caller of [isLocalMode()] sees. *)
Definition localModeEnabled (n : Notion.t) : bool :=
  value (Notion._localModeSubject n).

(** ** Capability guard *)

(** A call to one of the two validators of [utils/oauth], read off the
    methods above: [validateOAuthScopeForFunctionName(claims, name)], or
    [validateOAuthScopeForAction(claims, action)], for the action the caller
    handed over ([ByAction]) or for one the method makes on the way, whose
    command and action name are fixed and whose message is not
    ([ByActionNamed]). *)
Inductive Guard :=
| ByFunctionName (name : string)
| ByAction (a : Action)
| ByActionNamed (command action : string).

(** The validator calls in the body of an operation and of the methods of
    the class it calls, in the order in which they are reached.  [addMarker]
    and [haptics] end in [dispatchAction]; [haptics] and [accelerometer] wait
    for [getSelectedDevice()].  The three [training] functions call
    [api.actions.dispatch] themselves and ask no validator, like every
    member of the client. *)
Definition guards (op : Operation) : list Guard :=
  match op with
  | op_addDevice _ => [ByFunctionName "addDevice"]
  | op_removeDevice _ => [ByFunctionName "removeDevice"]
  | op_transferDevice _ => [ByFunctionName "transferDevice"]
  | op_onUserDevicesChange => [ByFunctionName "onUserDevicesChange"]
  | op_selectDevice _ => [ByFunctionName "selectDevice"]
  | op_getSelectedDevice => [ByFunctionName "getSelectedDevice"]
  | op_getInfo => [ByFunctionName "getInfo"]
  | op_onDeviceChange => [ByFunctionName "onDeviceChange"]
  | op_dispatchAction a => [ByAction a]
  | op_addMarker _ => [ByActionNamed "marker" "add"]
  | op_brainwaves _ _ => [ByFunctionName "brainwaves"]
  | op_calm => [ByFunctionName "calm"]
  | op_signalQuality => [ByFunctionName "signalQuality"]
  | op_settings => [ByFunctionName "settings"]
  | op_focus => [ByFunctionName "focus"]
  | op_kinesis _ _ => [ByFunctionName "kinesis"]
  | op_predictions _ _ => [ByFunctionName "predictions"]
  | op_status => [ByFunctionName "status"]
  | op_changeSettings _ => [ByFunctionName "changeSettings"]
  | op_haptics _ =>
      [ByFunctionName "getSelectedDevice"; ByActionNamed "haptics" "queue"]
  | op_accelerometer =>
      [ByFunctionName "accelerometer"; ByFunctionName "getSelectedDevice"]
  | _ => []
  end.

(** The operations that open with the test for a selected device and ask
    their validator right after it.  ([haptics], [addMarker] and [skill] test
    for a device as well, and go on differently.) *)
Definition checksDeviceFirst (op : Operation) : bool :=
  match op with
  | op_getInfo | op_dispatchAction _ | op_changeSettings _ => true
  | _ => false
  end.


Definition admits `{OAuth} (claims : UserClaims) (g : Guard) : Prop :=
  match g with
  | ByFunctionName name => fst (validateOAuthScopeForFunctionName claims name) = false
  | ByAction a => fst (validateOAuthScopeForAction claims a) = false
  | ByActionNamed c k =>
      forall a, command a = c -> action a = k ->
                fst (validateOAuthScopeForAction claims a) = false
  end.


(** Modelled from the spec: the validators of [src/utils/oauth] are not among
    the sources.  Section 4.2 of the specification: a static mapping from
    the operation name, or from the command/action pair of a dispatched
    action, to the minimal scope required; the check is a pure function of
    the claims and the operation; a denial is a scope error that names the
    missing scope.  The two mappings are parameters. *)
Section CapabilityGuard.
Variable scopeRequiredByFunctionName : string -> string.
Variable scopeRequiredByAction : string -> string -> string.

(** Modelled from the spec: the check of one scope against the claims. *)
Definition authorize (claims : UserClaims) (scope : string)
  : bool * option Error :=
  if decide (scope ∈ claims)
  then (false, None)
  else (true, Some (OAuthScopeError scope)).

(** Modelled from the spec: the static mapping to the scope required. *)
Definition requiredScope (g : Guard) : string :=
  match g with
  | ByFunctionName name => scopeRequiredByFunctionName name
  | ByAction a => scopeRequiredByAction (command a) (action a)
  | ByActionNamed c k => scopeRequiredByAction c k
  end.

(** Modelled from the spec: the two validators of [utils/oauth]. *)
Definition SpecOAuth : OAuth :=
  {| validateOAuthScopeForFunctionName claims name :=
       authorize claims (scopeRequiredByFunctionName name);
     validateOAuthScopeForAction claims a :=
       authorize claims (scopeRequiredByAction (command a) (action a)) |}.
End CapabilityGuard.

(** Two states of an instance with the same options object, on both the
    instance and its client, and the same on-device socket. *)
Definition same_wiring (a b : Notion.t) : Prop :=
  Notion.options b = Notion.options a /\
  ApiClient.options (Notion.api b) = ApiClient.options (Notion.api a) /\
  ApiClient.onDeviceSocket (Notion.api b) = ApiClient.onDeviceSocket (Notion.api a).

(** The transport [metrics.on] and [metrics.subscribe] pick for a metric. *)
Definition route `{Ipk} (a : ApiClient.t) (metric : string) : ServerType :=
  if ApiClient.shouldRerouteToDevice a metric
  then WebsocketServer
  else FirebaseServer.

(** The descriptor [metrics.subscribe] sends to the backend:
    [{ ...subscription, serverType }]. *)
Definition physical `{Ipk} (a : ApiClient.t) (s : Subscription) : Subscription :=
  {| metric := metric s;
     labels := labels s;
     atomic := atomic s;
     serverType := Some (route a (metric s)) |}.

(** ** A concrete setting, for the examples *)
Module Scenario.

Definition ipk : Ipk := ["awareness"; "brainwaves"; "kinesis"; "signalQuality"].

Definition scopeByName (name : string) : string := "read:" ++ name.

Definition scopeByAction (command action : string) : string :=
  "write:" ++ command.

Definition oauth : OAuth := SpecOAuth scopeByName scopeByAction.

Definition utils : Utils :=
  {| getLabels := fun _ => [];
     MODEL_VERSION_1 := "1";
     supportsHaptics := fun modelVersion => negb (String.eqb modelVersion "1");
     supportsAccel := fun modelVersion => negb (String.eqb modelVersion "1");
     getPlatformHapticMotors := fun _ => {[ "P7" := []; "P8" := [] ]};
     isNode := true |}.

Definition deviceA : DeviceInfo :=
  {| di_deviceId := "A"; deviceNickname := "Crown-85A"; modelVersion := "3" |}.

Definition someUser : User := {| uid := Some "user-1" |}.

(** Logged in, device A selected, the device advertised no socket URL,
    the caller holds the scopes for brainwaves and calm only. *)
Definition world : World :=
  {| log := [];
     clock := 1000;
     session := {| userClaims := {[ "read:brainwaves"; "read:calm" ]};
                   selectedDevice := Some deviceA;
                   user := Some someUser |};
     socketUrl_reply := Fulfilled None;
     login_reply := Fulfilled (Some someUser);
     getSelectedDevice_reply := Fulfilled (Some deviceA);
     getSkill_reply := Fulfilled None;
     timesync_timestamp := Qc_of_Z 1010 |}.

(** The same, before any device was selected. *)
Definition worldNoDevice : World :=
  {| log := [];
     clock := 1000;
     session := {| userClaims := {[ "read:brainwaves"; "read:calm" ]};
                   selectedDevice := None;
                   user := Some someUser |};
     socketUrl_reply := Fulfilled None;
     login_reply := Fulfilled (Some someUser);
     getSelectedDevice_reply := Fulfilled None;
     getSkill_reply := Fulfilled None;
     timesync_timestamp := Qc_of_Z 1010 |}.


(** The same, the caller holding the scope for [getSelectedDevice] only. *)
Definition worldReadsDevice : World :=
  {| log := [];
     clock := 1000;
     session := {| userClaims := {[ "read:getSelectedDevice" ]};
                   selectedDevice := Some deviceA;
                   user := Some someUser |};
     socketUrl_reply := Fulfilled None;
     login_reply := Fulfilled (Some someUser);
     getSelectedDevice_reply := Fulfilled (Some deviceA);
     getSkill_reply := Fulfilled None;
     timesync_timestamp := Qc_of_Z 1010 |}.

(** [new Notion({ onDeviceSocketUrl: "ws://10.0.0.7:8080" })] *)
Definition withSocketUrl : UserOptions :=
  {| Options.u_deviceId := None;
     Options.u_onDeviceSocketUrl := Some "ws://10.0.0.7:8080";
     Options.u_timesync := None;
     Options.u_autoSelectDevice := None;
     Options.u_emulator := None;
     Options.u_emulatorHost := None;
     Options.u_emulatorAuthPort := None;
     Options.u_emulatorDatabasePort := None;
     Options.u_emulatorFunctionsPort := None;
     Options.u_emulatorFirestorePort := None;
     Options.u_emulatorOptions := None |}.

Definition brainwavesRaw : Subscription := request "brainwaves" ["raw"] false.

(** The training of [examples/node/training.js]. *)
Definition leftHandPinch : TrainingOptions :=
  {| t_metric := "kinesis";
     t_label := "leftHandPinch";
     t_experimentId := Some "-experiment-123";
     t_fit := None;
     t_baseline := None;
     t_timestamp := None |}.

(** The one round trip of the specification's example. *)
Definition roundTrip : Timesync.Sample :=
  {| Timesync.sendTime := 0; Timesync.deviceTime := 60; Timesync.receiveTime := 100 |}.

End Scenario.

(** The operations with a [throw] statement in their body, and the
    [timestamp] getter, which reads a property of [this.timesync]. *)
Definition mayThrow (op : Operation) : bool :=
  match op with
  | op_addMarker _
  | op_training_record _ | op_training_stop _ | op_training_stopAll
  | op_api_timestamp => true
  | _ => false
  end.

(** The action [addMarker(label)] dispatches. *)
Definition markerAction (label : string) (timestamp : Qc) : Action :=
  {| command := "marker";
     action := "add";
     message := MarkerMessage label timestamp;
     responseRequired := false;
     responseTimeout := None |}.

(** ** More readers of the log, and a second setting *)

(** The actions handed to [firebase.dispatchAction], oldest first. *)
Fixpoint dispatched (l : list Call) : list Action :=
  match l with
  | [] => []
  | firebase_dispatchAction a :: rest => a :: dispatched rest
  | _ :: rest => dispatched rest
  end.

(** The calls made to the on-device websocket client, oldest first. *)
Fixpoint websocket_calls (l : list Call) : list Call :=
  match l with
  | [] => []
  | websocket_disconnect :: rest => websocket_disconnect :: websocket_calls rest
  | websocket_onMetric s cb :: rest => websocket_onMetric s cb :: websocket_calls rest
  | _ :: rest => websocket_calls rest
  end.

(** The subscriptions asked of [getMetric], oldest first. *)
Fixpoint requested (l : list Call) : list Subscription :=
  match l with
  | [] => []
  | getMetric s :: rest => s :: requested rest
  | _ :: rest => requested rest
  end.

(** How many [Timesync] objects were constructed. *)
Fixpoint timesyncs_constructed (l : list Call) : nat :=
  match l with
  | [] => 0
  | new_Timesync :: rest => S (timesyncs_constructed rest)
  | _ :: rest => timesyncs_constructed rest
  end.

(** The operations whose body, or the body of a method they call, asks
    one of the two validators of [utils/oauth]. *)
Definition consultsValidator (op : Operation) : bool :=
  match op with
  | op_addDevice _ | op_removeDevice _ | op_transferDevice _
  | op_onUserDevicesChange | op_selectDevice _ | op_getSelectedDevice
  | op_getInfo | op_onDeviceChange | op_dispatchAction _ | op_addMarker _
  | op_brainwaves _ _ | op_calm | op_signalQuality | op_settings | op_focus
  | op_kinesis _ _ | op_predictions _ _ | op_status | op_changeSettings _
  | op_haptics _ | op_accelerometer => true
  | _ => false
  end.

(** The action [haptics(effects)] dispatches. *)
Definition hapticsAction (request : gmap string (list string)) : Action :=
  {| command := "haptics";
     action := "queue";
     message := HapticsMessage request;
     responseRequired := true;
     responseTimeout := Some 1000 |}.

(** An entry of the caller's [effects] that the loop of [haptics] lets
    through: a motor of the platform, with at most [maxItems] effects. *)
Definition acceptedEffects (request : gmap string (list string)) (maxItems : nat)
    (entry : string * list string) : Prop :=
  entry.1 ∈ dom request /\ (length entry.2 <= maxItems)%nat.

Module Lab.

(** Logged in with every scope the examples need, device A selected and
    known to the client, and the device advertised a socket URL. *)
Definition world : World :=
  {| log := [];
     clock := 2000;
     session := {| userClaims := {[ "read:getSelectedDevice"; "write:haptics";
                                   "write:marker" ]};
                   selectedDevice := Some Scenario.deviceA;
                   user := Some Scenario.someUser |};
     socketUrl_reply := Fulfilled (Some "ws://10.0.0.7:8080");
     login_reply := Fulfilled (Some Scenario.someUser);
     getSelectedDevice_reply := Fulfilled (Some Scenario.deviceA);
     getSkill_reply := Fulfilled (Some "skill-1");
     timesync_timestamp := Qc_of_Z 2010 |}.

(** [new Notion({ timesync: true })] *)
Definition withTimesync : UserOptions :=
  {| Options.u_deviceId := None;
     Options.u_onDeviceSocketUrl := None;
     Options.u_timesync := Some true;
     Options.u_autoSelectDevice := None;
     Options.u_emulator := None;
     Options.u_emulatorHost := None;
     Options.u_emulatorAuthPort := None;
     Options.u_emulatorDatabasePort := None;
     Options.u_emulatorFunctionsPort := None;
     Options.u_emulatorFirestorePort := None;
     Options.u_emulatorOptions := None |}.

Definition credentials : Credentials :=
  {| email := "someone@example.com"; password := "secret" |}.

Definition tripleClick : list (string * list string) :=
  [("P7", ["tripleClick100"])].

End Lab.

(** * Properties *)

Ltac unfold_methods :=
  cbv [invoke
       Notion.login Notion.logout Notion.addDevice Notion.removeDevice
       Notion.transferDevice Notion.onUserDevicesChange Notion.onUserClaimsChange
       Notion.getDevices Notion.selectDevice Notion.getSelectedDevice
       Notion.getInfo Notion.onDeviceChange Notion.enableLocalMode
       Notion.disconnect Notion.dispatchAction Notion.addMarker
       Notion.brainwaves Notion.calm Notion.signalQuality Notion.settings
       Notion.focus Notion.kinesis Notion.predictions Notion.status
       Notion.changeSettings Notion.training_record Notion.training_stop
       Notion.training_stopAll Notion.goOffline Notion.goOnline
       Notion.getTimesyncOffset Notion.getApp Notion.onAuthStateChanged
       Notion.socketUrl Notion.getSelectedDevice_awaited Notion.haptics
       Notion.accelerometer Notion.createAccount Notion.deleteAccount
       Notion.createCustomToken Notion.createOAuthURL Notion.getOAuthToken
       Notion.removeOAuthAccess Notion.skill Notion.onUserExperiments
       Notion.deleteUserExperiment Notion.withScope Notion.withDevice
       Notion.via_api Notion.didSelectDevice Notion.api_userClaims
       Notion.api_user Notion.localModeSubject_next
       ApiClient.login ApiClient.disconnect ApiClient.getInfo
       ApiClient.actions_dispatch ApiClient.metrics_next ApiClient.metrics_on
       ApiClient.metrics_subscribe ApiClient.metrics_unsubscribe
       ApiClient.skills_get ApiClient.onStatus ApiClient.offStatus
       ApiClient.timestamp
       Notion.set_api Notion.set_localModeSubject ApiClient.set_timesync
       on_member delegate call ask update this bind ret fst snd].

(** Case analysis on what the code branches on, innermost test first. *)
Ltac split_cases :=
  repeat (cbn beta iota zeta;
          match goal with
          | |- context [match ?x with _ => _ end] =>
              lazymatch x with
              | context [match _ with _ => _ end] => fail
              | _ => destruct x eqn:?
              end
          end);
  cbn beta iota zeta.

Lemma sockets_constructed_app (l1 l2 : list Call) :
  sockets_constructed (l1 ++ l2) = (sockets_constructed l1 + sockets_constructed l2)%nat.
Proof.
  induction l1 as [|c l1 IH]; simpl; [reflexivity|].
  destruct c; simpl; rewrite IH; reflexivity.
Qed.

Lemma created_app (l1 l2 : list Call) :
  created (l1 ++ l2) = (created l1 ++ created l2)%list.
Proof.
  induction l1 as [|c l1 IH]; simpl; [reflexivity|].
  destruct c; simpl; rewrite IH; reflexivity.
Qed.

Lemma warnings_app (l1 l2 : list Call) :
  warnings (l1 ++ l2) = (warnings l1 ++ warnings l2)%list.
Proof.
  induction l1 as [|c l1 IH]; simpl; [reflexivity|].
  destruct c; simpl; rewrite IH; reflexivity.
Qed.

Lemma dispatched_app (l1 l2 : list Call) :
  dispatched (l1 ++ l2) = (dispatched l1 ++ dispatched l2)%list.
Proof.
  induction l1 as [|c l1 IH]; simpl; [reflexivity|].
  destruct c; simpl; rewrite IH; reflexivity.
Qed.

Lemma requested_app (l1 l2 : list Call) :
  requested (l1 ++ l2) = (requested l1 ++ requested l2)%list.
Proof.
  induction l1 as [|c l1 IH]; simpl; [reflexivity|].
  destruct c; simpl; rewrite IH; reflexivity.
Qed.

Section Wiring.
Context `{Ipk} `{OAuth} `{Utils}.

Lemma same_wiring_refl n : same_wiring n n.
Proof. repeat split. Qed.

Lemma same_wiring_trans a b c :
  same_wiring a b -> same_wiring b c -> same_wiring a c.
Proof.
  intros (? & ? & ?) (? & ? & ?); repeat split; congruence.
Qed.

(** No operation replaces the options or the socket, and none constructs
    a socket client. *)
Lemma invoke_wiring op n w :
  same_wiring n (fst (snd (invoke op (n, w)))) /\
  sockets_constructed (log (snd (snd (invoke op (n, w))))) =
  sockets_constructed (log w).
Proof.
  destruct op; unfold_methods; split_cases; simpl;
    repeat rewrite sockets_constructed_app; simpl;
    (split; [repeat split | lia]).
Qed.

Lemma run_cons op rest st :
  run (op :: rest) st =
  (fst (invoke op st) :: fst (run rest (snd (invoke op st))),
   snd (run rest (snd (invoke op st)))).
Proof.
  simpl; unfold bind, ret.
  destruct (invoke op st) as [o st1]; simpl.
  destruct (run rest st1); reflexivity.
Qed.

Lemma run_wiring ops : forall n w,
  same_wiring n (fst (snd (run ops (n, w)))) /\
  sockets_constructed (log (snd (snd (run ops (n, w))))) =
  sockets_constructed (log w).
Proof.
  induction ops as [|op rest IH]; intros n w.
  - split; [apply same_wiring_refl | reflexivity].
  - rewrite run_cons; cbn [fst snd].
    destruct (invoke_wiring op n w) as [Hw Hs].
    destruct (invoke op (n, w)) as [o [n1 w1]]; cbn [fst snd] in *.
    destruct (IH n1 w1) as [Hw' Hs'].
    split; [eapply same_wiring_trans; eassumption | congruence].
Qed.

Lemma truthy_spread opts :
  truthy (Options.onDeviceSocketUrl (spread defaultOptions opts)) =
  truthy (Options.u_onDeviceSocketUrl opts).
Proof. destruct opts as [? [url|]]; reflexivity. Qed.

(** What the two constructors set up. *)
Lemma new_wiring opts w :
  let n := fst (Notion.new opts w) in
  let w' := snd (Notion.new opts w) in
  Notion.options n = Object_freeze (spread defaultOptions opts) /\
  ApiClient.options (Notion.api n) = Notion.options n /\
  (is_Some (ApiClient.onDeviceSocket (Notion.api n)) <->
   truthy (Options.u_onDeviceSocketUrl opts) = true) /\
  sockets_constructed (log w') =
  (sockets_constructed (log w) +
   if truthy (Options.u_onDeviceSocketUrl opts) then 1 else 0)%nat.
Proof.
  unfold Notion.new, ApiClient.new; cbn [fields Object_freeze].
  rewrite truthy_spread.
  destruct (truthy (Options.u_onDeviceSocketUrl opts)); simpl;
    repeat rewrite sockets_constructed_app; simpl.
  - repeat split; eauto; lia.
  - repeat split; try discriminate; try lia.
    intros [? ?]; discriminate.
Qed.

(** The wiring of an instance at any point of its life. *)
Lemma instance_after_wiring opts w0 ops :
  let n := fst (instance_after opts w0 ops) in
  let w := snd (instance_after opts w0 ops) in
  same_wiring (fst (Notion.new opts w0)) n /\
  Notion.options n = Object_freeze (spread defaultOptions opts) /\
  ApiClient.options (Notion.api n) = Notion.options n /\
  (is_Some (ApiClient.onDeviceSocket (Notion.api n)) <->
   truthy (Options.u_onDeviceSocketUrl opts) = true) /\
  sockets_constructed (log w) =
  (sockets_constructed (log w0) +
   if truthy (Options.u_onDeviceSocketUrl opts) then 1 else 0)%nat.
Proof.
  unfold instance_after.
  destruct (new_wiring opts w0) as (Ho & Ha & Hs & Hc).
  destruct (Notion.new opts w0) as [n0 w1]; simpl in *.
  destruct (run_wiring ops n0 w1) as [(E1 & E2 & E3) Hk].
  cbv zeta. rewrite E1, E2, E3, Hk, Ha, Ho.
  repeat split; try assumption; try apply Hs.
Qed.

End Wiring.

(** ** Subscriptions and routing *)

Section Routing.
Context `{Ipk} `{OAuth} `{Utils}.

Lemma route_same_wiring a b metric :
  same_wiring a b ->
  route (Notion.api b) metric = route (Notion.api a) metric.
Proof.
  intros (_ & _ & E); unfold route, ApiClient.shouldRerouteToDevice.
  rewrite E; reflexivity.
Qed.

Lemma invoke_subscribe s n w :
  invoke (op_api_metrics_subscribe s) (n, w) =
  (Delegates (firebase_subscribeToMetric (physical (Notion.api n) s)),
   (Notion.set_api (Notion.api n) n,
    record_call (firebase_subscribeToMetric (physical (Notion.api n) s)) w)).
Proof.
  unfold_methods; unfold physical, route.
  destruct (ApiClient.shouldRerouteToDevice _ _); reflexivity.
Qed.

Lemma run_subscribe subs : forall n w,
  created (log (snd (snd (run (map op_api_metrics_subscribe subs) (n, w))))) =
  (created (log w) ++ map (physical (Notion.api n)) subs)%list.
Proof.
  induction subs as [|s rest IH]; intros n w.
  - simpl; rewrite app_nil_r; reflexivity.
  - cbn [map]; rewrite run_cons, invoke_subscribe; cbn [fst snd].
    rewrite IH; cbn [Notion.api Notion.set_api log record_call map].
    rewrite created_app; cbn [created].
    rewrite <- app_assoc; reflexivity.
Qed.

End Routing.

(** C1, as the code has it: every logical [metrics.subscribe] call issues a
    [firebase.subscribeToMetric] call of its own, carrying the request and
    the routed [serverType].  After [subs] calls the backend has seen [subs]
    creations, in order, whether or not some requests coincide; requests
    that agree on metric, labels and atomic flag are sent the same
    descriptor, and are not merged. *)
Theorem subscribe_creates_one_per_call :
  forall `{Ipk} `{OAuth} `{Utils}
         (n : Notion.t) (w : World) (subs : list Subscription),
    let w' := snd (snd (run (map op_api_metrics_subscribe subs) (n, w))) in
    created (log w') = (created (log w) ++ map (physical (Notion.api n)) subs)%list /\
    length (created (log w')) = (length (created (log w)) + length subs)%nat /\
    (forall s1 s2 : Subscription,
        metric s1 = metric s2 -> labels s1 = labels s2 -> atomic s1 = atomic s2 ->
        physical (Notion.api n) s1 = physical (Notion.api n) s2).
Proof.
  intros Hi Ho Hs n w subs w'; subst w'.
  rewrite run_subscribe.
  split; [reflexivity|split].
  - rewrite length_app, length_map; reflexivity.
  - intros s1 s2 Em El Ea; unfold physical; rewrite Em, El, Ea; reflexivity.
Qed.

(** C1, as stated, fails: two identical requests, which have the same key
    under any normalisation, create two subscriptions at the backend. *)
Lemma identical_subscribes_create_two :
  let r := Scenario.brainwavesRaw in
  let st := @instance_after Scenario.ipk Scenario.oauth Scenario.utils
              noOptions Scenario.world
              [op_api_metrics_subscribe r; op_api_metrics_subscribe r] in
  created (log (snd st)) =
    [ {| metric := "brainwaves"; labels := ["raw"]; atomic := false;
         serverType := Some FirebaseServer |};
      {| metric := "brainwaves"; labels := ["raw"]; atomic := false;
         serverType := Some FirebaseServer |} ] /\
  length (created (log (snd st))) <> 1%nat.
Proof. split; [reflexivity | discriminate]. Qed.

Section RouterFacts.
Context `{Ipk} `{OAuth} `{Utils}.

Lemma shouldReroute_iff a metric :
  ApiClient.shouldRerouteToDevice a metric = true <->
  is_Some (ApiClient.onDeviceSocket a) /\ metric ∈ metrics_keys.
Proof.
  unfold ApiClient.shouldRerouteToDevice, isNotionMetric.
  destruct (ApiClient.onDeviceSocket a) as [ws|].
  - rewrite bool_decide_eq_true; split; [intros; split; eauto | intros [_ ?]; assumption].
  - split; [discriminate | intros [[? ?] _]; discriminate].
Qed.

Lemma invoke_on s callback n w :
  invoke (op_api_metrics_on s callback) (n, w) =
  let c := if ApiClient.shouldRerouteToDevice (Notion.api n) (metric s)
           then websocket_onMetric s callback
           else firebase_onMetric s callback in
  (Delegates c, (Notion.set_api (Notion.api n) n, record_call c w)).
Proof.
  unfold_methods.
  destruct (ApiClient.shouldRerouteToDevice _ _); reflexivity.
Qed.

End RouterFacts.

(** C2, as the code has it: [metrics.on] hands the subscription to the
    on-device socket exactly when the instance was constructed with an
    on-device socket URL and the metric is one of the names in the table of
    [@neurosity/ipk]; otherwise it hands it to the cloud client.  This holds
    at every point of the life of the instance, whatever was done with
    [enableLocalMode] before. *)
Theorem route_local_iff_socket_and_allow_listed :
  forall `{Ipk} `{OAuth} `{Utils}
         (opts : UserOptions) (w0 : World) (ops : list Operation)
         (s : Subscription) (callback : nat),
    let st := instance_after opts w0 ops in
    let r := invoke (op_api_metrics_on s callback) st in
    let local :=
      truthy (Options.u_onDeviceSocketUrl opts) = true /\ metric s ∈ metrics_keys in
    (fst r = Delegates (websocket_onMetric s callback) <-> local) /\
    (fst r = Delegates (firebase_onMetric s callback) <-> ~ local) /\
    (route (Notion.api (fst st)) (metric s) = WebsocketServer <-> local) /\
    (exists c, fst r = Delegates c /\
               log (snd (snd r)) = (log (snd st) ++ [c])%list).
Proof.
  intros Hi Ho Hs opts w0 ops s callback st r local.
  destruct (instance_after_wiring opts w0 ops) as (_ & _ & _ & Hsock & _).
  fold st in Hsock.
  assert (Hlocal : ApiClient.shouldRerouteToDevice (Notion.api (fst st)) (metric s) = true
                   <-> local).
  { rewrite shouldReroute_iff; unfold local; rewrite Hsock; reflexivity. }
  subst r; destruct st as [n w]; rewrite invoke_on; cbn [fst snd] in *.
  unfold route.
  destruct (ApiClient.shouldRerouteToDevice (Notion.api n) (metric s)); cbn.
  - assert (local) by (apply Hlocal; reflexivity).
    split; [|split; [|split]]; [intuition congruence.. | eauto].
  - assert (~ local) by (intros L; apply Hlocal in L; discriminate).
    split; [|split; [|split]]; [intuition congruence.. | eauto].
Qed.

(** C2, as stated, fails: an instance constructed with an on-device socket
    URL sends an allow-listed metric to the socket although local mode was
    just switched off and the device advertised no socket URL. *)
Lemma local_route_while_local_mode_disabled :
  let st := @instance_after Scenario.ipk Scenario.oauth Scenario.utils
              Scenario.withSocketUrl Scenario.world
              [op_enableLocalMode (JsBoolean false)] in
  localModeEnabled (fst st) = false /\
  socketUrl_reply (snd st) = Fulfilled None /\
  fst (@invoke Scenario.ipk Scenario.oauth Scenario.utils
         (op_api_metrics_on Scenario.brainwavesRaw 0) st) =
  Delegates (websocket_onMetric Scenario.brainwavesRaw 0).
Proof. repeat split. Qed.

(** ** The instance's wiring *)

(** C10: the options object is the frozen merge of the defaults and the
    caller's options, on the instance and on its client alike, at every
    point of the life of the instance; a write to it fails; the on-device
    socket exists exactly when [onDeviceSocketUrl] was given, it is the one
    the constructor made, and no operation constructs another. *)
Theorem socket_transport_fixed_at_construction :
  forall `{Ipk} `{OAuth} `{Utils}
         (opts : UserOptions) (w0 : World) (ops : list Operation),
    let n0 := fst (Notion.new opts w0) in
    let n := fst (instance_after opts w0 ops) in
    let w := snd (instance_after opts w0 ops) in
    let given := truthy (Options.u_onDeviceSocketUrl opts) in
    Notion.options n = Object_freeze (spread defaultOptions opts) /\
    ApiClient.options (Notion.api n) = Notion.options n /\
    (forall f, exists e, assign f (Notion.options n) = inr e) /\
    (is_Some (ApiClient.onDeviceSocket (Notion.api n)) <-> given = true) /\
    ApiClient.onDeviceSocket (Notion.api n) = ApiClient.onDeviceSocket (Notion.api n0) /\
    sockets_constructed (log w) =
      (sockets_constructed (log w0) + if given then 1 else 0)%nat.
Proof.
  intros Hi Ho Hs opts w0 ops n0 n w given.
  destruct (instance_after_wiring opts w0 ops) as ((_ & _ & E) & Hopt & Hapi & Hsock & Hcount).
  fold n in E, Hopt, Hapi, Hsock. fold w in Hcount. fold n0 in E.
  repeat split; try assumption; try apply Hsock.
  intros f; rewrite Hopt; cbn; eauto.
Qed.

(** ** Capability guard *)


Lemma authorize_allows claims scope :
  authorize claims scope = (false, None) <-> scope ∈ claims.
Proof.
  unfold authorize; destruct (decide (scope ∈ claims)); split;
    intros; try discriminate; try contradiction; auto; reflexivity.
Qed.


Section GuardFacts.
Context `{Ipk} `{OAuth} `{Utils}.





End GuardFacts.


Lemma SpecOAuth_admits byName byAction claims g :
  requiredScope byName byAction g ∈ claims ->
  @admits (SpecOAuth byName byAction) claims g.
Proof.
  intros Hin; destruct g; cbn [admits requiredScope] in *;
    [| |intros a <- <-];
    cbn [validateOAuthScopeForFunctionName validateOAuthScopeForAction SpecOAuth];
    rewrite (proj2 (authorize_allows _ _) Hin); reflexivity.
Qed.


(** The two operations with more than one check.  [accelerometer()]
    denied by its own scope errors its stream at once.  [haptics()] waits for
    [getSelectedDevice()] first: denied there it has called nothing; denied
    by the scope of its action it has read the selected device and
    dispatched nothing. *)
Lemma composite_operations_denied :
  forall (byName : string -> string) (byAction : string -> string -> string)
         `{Ipk} `{Utils}
         (effects : list (string * list string)) (n : Notion.t) (w : World),
    let oauth := SpecOAuth byName byAction in
    let claims := userClaims (session w) in
    let h := @invoke _ oauth _ (op_haptics effects) (n, w) in
    (byName "accelerometer" ∉ claims ->
       @invoke _ oauth _ op_accelerometer (n, w) =
       (StreamError (Some (OAuthScopeError (byName "accelerometer"))), (n, w))) /\
    (selectedDevice (session w) <> None ->
     byName "getSelectedDevice" ∉ claims ->
       h = (Rejects (Some (OAuthScopeError (byName "getSelectedDevice"))), (n, w))) /\
    (byAction "haptics" "queue" ∉ claims ->
       (exists reason, fst h = Rejects reason) /\
       (log (snd (snd h)) = log w \/
        log (snd (snd h)) = (log w ++ [api_member "getSelectedDevice" ""])%list)).
Proof.
  intros byName byAction Hi Hu effects n w oauth claims h.
  subst h oauth claims; unfold_methods;
    cbn [validateOAuthScopeForFunctionName validateOAuthScopeForAction SpecOAuth];
    unfold authorize.
  split; [|split].
  - intros Hout.
    destruct (decide (byName "accelerometer" ∈ userClaims (session w)));
      [contradiction | reflexivity].
  - intros Hdev Hout.
    destruct (selectedDevice (session w)); [|contradiction]; cbn.
    destruct (decide (byName "getSelectedDevice" ∈ userClaims (session w)));
      [contradiction | reflexivity].
  - intros Hout.
    destruct (selectedDevice (session w)) eqn:Hdev; cbn; [|eauto].
    destruct (decide (byName "getSelectedDevice" ∈ userClaims (session w)));
      cbn; [|eauto].
    destruct (getSelectedDevice_reply w) as [[d'|]|err]; cbn; [|eauto..].
    destruct (supportsHaptics (modelVersion d')); cbn; [|eauto].
    destruct (Notion.fillHapticRequest _ _ _ _); cbn; [|eauto].
    rewrite Hdev; cbn.
    destruct (decide (byAction "haptics" "queue" ∈ userClaims (session w)));
      [contradiction | cbn; eauto].
Qed.




(** [haptics] refused the scope of its action has read the selected
    device already: the refusal comes after one call to the client, and
    before any dispatch. *)
Lemma haptics_reads_device_before_action_check :
  let n := fst (Notion.new noOptions Scenario.worldReadsDevice) in
  let r := @invoke Scenario.ipk Scenario.oauth Scenario.utils
             (op_haptics Lab.tripleClick) (n, Scenario.worldReadsDevice) in
  fst r = Rejects (Some (OAuthScopeError "write:haptics")) /\
  log (snd (snd r)) = [api_member "getSelectedDevice" ""].
Proof. split; reflexivity. Qed.

(** The operations with a check are those of [consultsValidator]. *)
Lemma guards_nil_iff (op : Operation) :
  guards op = [] <-> consultsValidator op = false.
Proof. destruct op; cbn; split; intros; congruence. Qed.

(** ** Local mode *)

(** C4: when the device advertised no socket URL (the backend answers
    [context/socketUrl] with nothing, or with the empty string),
    [enableLocalMode(true)] returns a promise rejected with the error
    "Your device's OS does not support localMode", and the instance is left
    as it was: the flag keeps its value and nothing is emitted on the
    local-mode subject.  The one call made is the read of the socket URL. *)
Theorem enableLocalMode_true_without_socketUrl_fails :
  forall `{Ipk} `{OAuth} `{Utils}
         (n : Notion.t) (w : World) (socketUrl : option string),
    socketUrl_reply w = Fulfilled socketUrl ->
    truthy socketUrl = false ->
    let r := invoke (op_enableLocalMode (JsBoolean true)) (n, w) in
    fst r = Rejects (Some Notion.localModeNotSupported) /\
    fst (snd r) = n /\
    localModeEnabled (fst (snd r)) = localModeEnabled n /\
    emitted (Notion._localModeSubject (fst (snd r))) =
      emitted (Notion._localModeSubject n) /\
    log (snd (snd r)) =
      (log w ++ [api_member "onceNamespace" "context/socketUrl"])%list.
Proof.
  intros Hi Ho Hs n w socketUrl Hreply Hfalsy r; subst r.
  unfold_methods; cbn.
  rewrite Hreply, Hfalsy; cbn.
  repeat split.
Qed.

Lemma enableLocalMode_true_without_socketUrl_fails_witness :
  let n := fst (Notion.new noOptions Scenario.world) in
  let r := @invoke Scenario.ipk Scenario.oauth Scenario.utils
             (op_enableLocalMode (JsBoolean true)) (n, Scenario.world) in
  fst r = Rejects (Some Notion.localModeNotSupported) /\
  localModeEnabled (fst (snd r)) = false.
Proof.
  destruct (enableLocalMode_true_without_socketUrl_fails
              (H := Scenario.ipk) (H0 := Scenario.oauth)
              (H1 := Scenario.utils)
              (fst (Notion.new noOptions Scenario.world)) Scenario.world None
              eq_refl eq_refl)
    as (Hr & _ & Hflag & _).
  split; [exact Hr | rewrite Hflag; reflexivity].
Defined.

(** The data-model invariant behind C4: whatever the operation, the flag
    goes from off to on only through [enableLocalMode] with a true argument
    in a world where the device advertised a socket URL. *)
Lemma local_mode_turns_on_only_with_socketUrl :
  forall `{Ipk} `{OAuth} `{Utils}
         (op : Operation) (n : Notion.t) (w : World),
    localModeEnabled (fst (snd (invoke op (n, w)))) = true ->
    localModeEnabled n = true \/
    (exists v url,
        op = op_enableLocalMode v /\ js_truthy v = true /\
        socketUrl_reply w = Fulfilled url /\ truthy url = true).
Proof.
  intros Hi Ho Hs op n w.
  destruct op; unfold_methods; unfold localModeEnabled;
    try (split_cases; cbn; intros; left; assumption).
  destruct (String.eqb (typeof shouldEnable) "boolean"); cbn; [|auto].
  destruct (js_truthy shouldEnable) eqn:Hv; cbn.
  - destruct (socketUrl_reply w) as [url|e] eqn:Hreply; cbn; [|auto].
    destruct (truthy url) eqn:Hurl; cbn; [|auto].
    intros _; right; exists shouldEnable, url; auto.
  - intros; discriminate.
Qed.

(** C8: [enableLocalMode(false)] succeeds in every state, a device being
    selected or not: the promise resolves with [false], the flag is [false]
    afterwards, [false] is emitted on the local-mode subject, and no call is
    made at all, so the socket URL of the device is never looked at. *)
Theorem enableLocalMode_false_always_succeeds :
  forall `{Ipk} `{OAuth} `{Utils} (n : Notion.t) (w : World),
    let r := invoke (op_enableLocalMode (JsBoolean false)) (n, w) in
    fst r = Resolves (JsBoolean false) /\
    localModeEnabled (fst (snd r)) = false /\
    emitted (Notion._localModeSubject (fst (snd r))) =
      (emitted (Notion._localModeSubject n) ++ [false])%list /\
    same_wiring n (fst (snd r)) /\
    snd (snd r) = w.
Proof.
  intros Hi Ho Hs n w r; subst r.
  unfold_methods; cbn.
  repeat split.
Qed.

(** ** Aliases *)

(** C9: [calm()] and [focus()] are views of the one metric "awareness".
    Behind their scope check, [calm()] asks [getMetric] for metric
    "awareness" with labels ["calm"] and [atomic = false], and [focus()]
    for metric "awareness" with labels ["focus"] and [atomic = false]. *)
Theorem calm_and_focus_alias_awareness :
  forall `{Ipk} `{OAuth} `{Utils} (n : Notion.t) (w : World),
    let claims := userClaims (session w) in
    let awareness label :=
      {| metric := "awareness"; labels := [label]; atomic := false;
         serverType := None |} in
    invoke op_calm (n, w) =
      (let (hasOAuthError, OAuthError) :=
         validateOAuthScopeForFunctionName claims "calm" in
       if hasOAuthError
       then (StreamError OAuthError, (n, w))
       else (Delegates (getMetric (awareness "calm")),
             (n, record_call (getMetric (awareness "calm")) w))) /\
    invoke op_focus (n, w) =
      (let (hasOAuthError, OAuthError) :=
         validateOAuthScopeForFunctionName claims "focus" in
       if hasOAuthError
       then (StreamError OAuthError, (n, w))
       else (Delegates (getMetric (awareness "focus")),
             (n, record_call (getMetric (awareness "focus")) w))) /\
    metric (awareness "calm") = metric (awareness "focus").
Proof.
  intros Hi Ho Hs n w claims awareness; subst claims awareness.
  unfold_methods.
  split; [|split; [|reflexivity]].
  - destruct (validateOAuthScopeForFunctionName _ "calm") as [[|] e]; reflexivity.
  - destruct (validateOAuthScopeForFunctionName _ "focus") as [[|] e]; reflexivity.
Qed.

(** ** Timestamps *)

(** C5: with [options.timesync] off, the [timestamp] getter is the local
    clock [Date.now()], and so is the timestamp of the marker that
    [addMarker] dispatches; [getTimesyncOffset()] writes one warning to the
    console and returns 0.  With [options.timesync] on, no warning is
    written and the offset is the one the client reports. *)
Theorem timesync_disabled_uses_local_clock :
  forall `{Ipk} `{OAuth} `{Utils}
         (opts : UserOptions) (w0 : World) (ops : list Operation),
    let st := instance_after opts w0 ops in
    let w := snd st in
    let enabled := Options.timesync (spread defaultOptions opts) in
    let stamp := invoke op_api_timestamp st in
    let offset := invoke op_getTimesyncOffset st in
    let warning := "getTimesyncOffset() requires options.timesync to be true." in
    (enabled = false ->
       fst stamp = Returns (JsNumber (Qc_of_Z (clock w))) /\
       log (snd (snd stamp)) = log w /\
       fst offset = Returns (JsNumber 0%Qc) /\
       log (snd (snd offset)) = (log w ++ [console_warn warning])%list) /\
    (enabled = true ->
       fst offset = Delegates (api_member "getTimesyncOffset" "") /\
       warnings (log (snd (snd offset))) = warnings (log w)) /\
    (enabled = false ->
       forall label : string,
         truthy (Some label) = true ->
         selectedDevice (session w) <> None ->
         fst (validateOAuthScopeForAction (userClaims (session w))
                (markerAction label (Qc_of_Z (clock w)))) = false ->
         fst (invoke (op_addMarker (Some label)) st) =
         Delegates (firebase_dispatchAction (markerAction label (Qc_of_Z (clock w))))).
Proof.
  intros Hi Ho Hs opts w0 ops st w enabled stamp offset warning.
  destruct (instance_after_wiring opts w0 ops) as (_ & Hopt & Hapi & _).
  fold st in Hopt, Hapi.
  subst w stamp offset; destruct st as [n w]; cbn [fst snd] in *.
  assert (En : Options.timesync (fields (Notion.options n)) = enabled)
    by (rewrite Hopt; reflexivity).
  assert (Ea : Options.timesync (fields (ApiClient.options (Notion.api n))) = enabled)
    by (rewrite Hapi; exact En).
  clearbody enabled; clear Hopt Hapi.
  unfold_methods; rewrite ?En, ?Ea.
  split; [|split].
  - intros ->; cbn; repeat split.
  - intros ->; cbn; rewrite warnings_app; cbn; rewrite app_nil_r; repeat split.
  - intros -> label Hlabel Hdev Hallowed.
    destruct (selectedDevice (session w)) as [d|] eqn:Ed; [|contradiction]; cbn.
    cbn in Hlabel; rewrite Hlabel; cbn.
    rewrite Ea; cbn.
    rewrite Ed; cbn.
    unfold markerAction in *.
    destruct (validateOAuthScopeForAction _ _) as [[|] e]; [discriminate|].
    reflexivity.
Qed.

Lemma timesync_disabled_uses_local_clock_witness :
  let st := @instance_after Scenario.ipk Scenario.oauth Scenario.utils
              noOptions Scenario.world [] in
  fst (@invoke Scenario.ipk Scenario.oauth Scenario.utils
         op_api_timestamp st) = Returns (JsNumber (Qc_of_Z 1000)) /\
  fst (@invoke Scenario.ipk Scenario.oauth Scenario.utils
         op_getTimesyncOffset st) = Returns (JsNumber 0%Qc).
Proof.
  destruct (timesync_disabled_uses_local_clock
              (H := Scenario.ipk) (H0 := Scenario.oauth)
              (H1 := Scenario.utils)
              noOptions Scenario.world [])
    as (Hoff & _ & _).
  destruct (Hoff eq_refl) as (Hstamp & _ & Hzero & _).
  split; [exact Hstamp | exact Hzero].
Defined.

(** ** Haptics *)

(** The loop of [haptics] only overwrites motors the platform has. *)
Lemma fillHapticRequest_dom modelVersion maxItems effects :
  forall request filled,
    Notion.fillHapticRequest modelVersion maxItems effects request = inl filled ->
    dom filled = dom request.
Proof.
  induction effects as [|[key singleMotorEffects] rest IH]; intros request filled.
  - cbn; intros [= <-]; reflexivity.
  - cbn [Notion.fillHapticRequest].
    destruct (bool_decide (key ∈ dom request)) eqn:Hkey; cbn [negb]; [|discriminate].
    destruct (maxItems <? length singleMotorEffects)%nat; [discriminate|].
    intros Hfill; rewrite (IH _ _ Hfill), dom_insert_L.
    apply bool_decide_eq_true in Hkey.
    apply subseteq_union_1_L, singleton_subseteq_l; exact Hkey.
Qed.

(** ** How failures reach the caller *)

(** C7, as the code has it: outside [addMarker], the three [training]
    functions and the [timestamp] getter, no operation lets an exception
    escape; a failure comes back as a rejected promise or an errored
    stream, and the operations that ask for a selected device reject with
    [errors.mustSelectDevice] when there is none, having called nothing.
    The [training] functions return no value: without a selected device
    they throw [errors.mustSelectDevice]. *)
Theorem failures_by_value_outside_training :
  forall `{Ipk} `{OAuth} `{Utils}
         (op : Operation) (n : Notion.t) (w : World),
    mayThrow op = false ->
    (forall e, fst (invoke op (n, w)) <> Throws e) /\
    (selectedDevice (session w) = None ->
       (checksDeviceFirst op = true ->
          invoke op (n, w) = (Rejects (Some errors.mustSelectDevice), (n, w))) /\
       (forall training,
          invoke (op_training_record training) (n, w) =
            (Throws errors.mustSelectDevice, (n, w)) /\
          invoke (op_training_stop training) (n, w) =
            (Throws errors.mustSelectDevice, (n, w))) /\
       invoke op_training_stopAll (n, w) = (Throws errors.mustSelectDevice, (n, w))).
Proof.
  intros Hi Ho Hs op n w Hop.
  split.
  - destruct op; try discriminate Hop; unfold_methods; split_cases;
      intros ?; discriminate.
  - intros Hdev; split; [|split].
    + destruct op; try discriminate; intros _; unfold_methods; rewrite Hdev; reflexivity.
    + intros training; unfold_methods; rewrite Hdev; split; reflexivity.
    + unfold_methods; rewrite Hdev; reflexivity.
Qed.

Lemma failures_by_value_outside_training_witness :
  let n := fst (Notion.new noOptions Scenario.worldNoDevice) in
  @invoke Scenario.ipk Scenario.oauth Scenario.utils
    op_getInfo (n, Scenario.worldNoDevice) =
  (Rejects (Some errors.mustSelectDevice), (n, Scenario.worldNoDevice)).
Proof.
  destruct (failures_by_value_outside_training
              (H := Scenario.ipk) (H0 := Scenario.oauth)
              (H1 := Scenario.utils)
              op_getInfo (fst (Notion.new noOptions Scenario.worldNoDevice))
              Scenario.worldNoDevice eq_refl)
    as (_ & Hnone).
  destruct (Hnone eq_refl) as (Hreject & _).
  exact (Hreject eq_refl).
Defined.

(** C7, as stated, fails: with no device selected, [training.record]
    throws. *)
Lemma training_record_throws_without_device :
  let n := fst (Notion.new noOptions Scenario.worldNoDevice) in
  fst (@invoke Scenario.ipk Scenario.oauth Scenario.utils
         (op_training_record Scenario.leftHandPinch) (n, Scenario.worldNoDevice)) =
  Throws errors.mustSelectDevice.
Proof. reflexivity. Qed.

(** [addMarker], whose result type is a promise, throws as well: with no
    device selected, and with an empty label. *)
Lemma addMarker_throws :
  let n := fst (Notion.new noOptions Scenario.worldNoDevice) in
  let n' := fst (Notion.new noOptions Scenario.world) in
  fst (@invoke Scenario.ipk Scenario.oauth Scenario.utils
         (op_addMarker (Some "eyes-closed")) (n, Scenario.worldNoDevice)) =
    Throws errors.mustSelectDevice /\
  fst (@invoke Scenario.ipk Scenario.oauth Scenario.utils
         (op_addMarker (Some "")) (n', Scenario.world)) =
    Throws (JsError "Neurosity SDK: A label is required for addMarker").
Proof. split; reflexivity. Qed.

(** ** Clock synchronisation *)

Lemma best_is_fastest (l : list Timesync.Sample) :
  match Timesync.best l with
  | None => l = []
  | Some b => b ∈ l /\ forall s, s ∈ l -> Timesync.latency b <= Timesync.latency s
  end.
Proof.
  induction l as [|s rest IH]; cbn [Timesync.best]; [reflexivity|].
  destruct (Timesync.best rest) as [b|].
  - destruct IH as [Hb Hmin].
    destruct (Z.leb_spec (Timesync.latency s) (Timesync.latency b)) as [Hle|Hlt].
    + split; [left|].
      intros s' [->|Hs']%elem_of_cons; [lia|].
      specialize (Hmin s' Hs'); lia.
    + split; [right; exact Hb|].
      intros s' [->|Hs']%elem_of_cons; [lia|].
      exact (Hmin s' Hs').
  - subst rest; split; [left|].
    intros s' [->|Hs']%elem_of_cons; [lia|].
    inversion Hs'.
Qed.

Lemma estimate_roundTrip : Timesync.estimate Scenario.roundTrip = Qc_of_Z 10.
Proof. apply Qc_is_canon; reflexivity. Qed.

(** C6: once enabled, the service keeps at most [windowSize] probes; the
    offset it reports is [deviceTime - (sendTime + receiveTime)/2] of a probe
    in the window whose round trip is the smallest there.  For the single
    probe (send 0, receive 100, device 60) the offset is 10 and [now] is
    the local time plus 10; a service that was never enabled reports the
    local time. *)
Theorem offset_is_estimate_of_fastest_probe :
  forall (ts : Timesync.t) (s : Timesync.Sample) (size : nat) (localTime : Z),
    let ts' := Timesync.probe s (Timesync.enable ts) in
    let single :=
      Timesync.probe Scenario.roundTrip (Timesync.enable (Timesync.create (S size))) in
    (length (Timesync.window ts') <= Timesync.windowSize ts)%nat /\
    ((0 < Timesync.windowSize ts)%nat ->
       exists b, b ∈ Timesync.window ts' /\
         Timesync.offset ts' =
           (Qc_of_Z (Timesync.deviceTime b)
            - (Qc_of_Z (Timesync.sendTime b) + Qc_of_Z (Timesync.receiveTime b))
              / Qc_of_Z 2)%Qc /\
         forall s', s' ∈ Timesync.window ts' ->
                    Timesync.latency b <= Timesync.latency s') /\
    Timesync.offset single = Qc_of_Z 10 /\
    Timesync.now single localTime = (Qc_of_Z localTime + Qc_of_Z 10)%Qc /\
    Timesync.now (Timesync.create (S size)) localTime = Qc_of_Z localTime.
Proof.
  intros ts s size localTime ts' single.
  assert (Hsingle : Timesync.offset single = Qc_of_Z 10).
  { unfold single, Timesync.offset; cbn.
    rewrite take_nil; cbn. exact estimate_roundTrip. }
  split; [|split; [|split; [|split]]].
  - subst ts'; cbn. rewrite length_take. lia.
  - intros Hpos; subst ts'; unfold Timesync.offset; cbn.
    destruct (Timesync.windowSize ts) as [|k]; [lia|]; cbn [take].
    pose proof (best_is_fastest (s :: take k (Timesync.window ts))) as Hbest.
    destruct (Timesync.best (s :: take k (Timesync.window ts))) as [b|];
      [|discriminate Hbest].
    destruct Hbest as [Hin Hmin].
    exists b; split; [exact Hin | split; [reflexivity | exact Hmin]].
  - exact Hsingle.
  - unfold Timesync.now.
    replace (Timesync.enabled single) with true by reflexivity.
    rewrite Hsingle; reflexivity.
  - reflexivity.
Qed.

Lemma offset_is_estimate_of_fastest_probe_witness :
  let ts := Timesync.probe Scenario.roundTrip
              (Timesync.enable (Timesync.create 3)) in
  Timesync.offset ts = Qc_of_Z 10 /\
  Timesync.now ts 1000 = (Qc_of_Z 1000 + Qc_of_Z 10)%Qc.
Proof.
  destruct (offset_is_estimate_of_fastest_probe
              (Timesync.create 3) Scenario.roundTrip 2 1000)
    as (_ & _ & Hoffset & Hnow & _).
  split; [exact Hoffset | exact Hnow].
Defined.

(** * Further properties *)

(** ** The loop of [haptics] *)

Lemma fillHapticRequest_accepts modelVersion maxItems effects :
  forall request,
    Forall (acceptedEffects request maxItems) effects ->
    Notion.fillHapticRequest modelVersion maxItems effects request =
    inl (foldl (fun r entry => <[entry.1 := entry.2]> r) request effects).
Proof.
  induction effects as [|[key singleMotorEffects] rest IH]; intros request Hall.
  - reflexivity.
  - apply Forall_cons in Hall as [[Hkey Hlen] Hrest]; cbn in Hkey, Hlen.
    cbn [Notion.fillHapticRequest foldl fst snd].
    rewrite bool_decide_eq_true_2 by exact Hkey; cbn [negb].
    destruct (Nat.ltb_spec maxItems (length singleMotorEffects)) as [Hlt|_]; [lia|].
    apply IH.
    eapply Forall_impl; [exact Hrest|].
    intros entry [Hin Hle]; split; [|exact Hle].
    rewrite dom_insert_L; apply elem_of_union_r, Hin.
Qed.

Lemma fillHapticRequest_accepted modelVersion maxItems effects :
  forall request filled,
    Notion.fillHapticRequest modelVersion maxItems effects request = inl filled ->
    Forall (acceptedEffects request maxItems) effects.
Proof.
  induction effects as [|[key singleMotorEffects] rest IH]; intros request filled Hfill.
  - constructor.
  - cbn [Notion.fillHapticRequest] in Hfill.
    destruct (bool_decide (key ∈ dom request)) eqn:Hkey; cbn [negb] in Hfill;
      [|discriminate].
    apply bool_decide_eq_true in Hkey.
    destruct (Nat.ltb_spec maxItems (length singleMotorEffects)) as [|Hle];
      [discriminate|].
    constructor; [split; assumption|].
    specialize (IH _ _ Hfill).
    eapply Forall_impl; [exact IH|].
    intros entry [Hin Hlen]; split; [|exact Hlen].
    rewrite dom_insert_L in Hin.
    apply elem_of_union in Hin as [Hin%elem_of_singleton|Hin]; [|exact Hin].
    rewrite Hin; exact Hkey.
Qed.

(** X1: the request goes through exactly when every entry names a motor of the
    platform and queues at most [maxItems] effects. *)
Theorem fillHapticRequest_succeeds_iff :
  forall (modelVersion : string) (maxItems : nat)
         (effects : list (string * list string))
         (request : gmap string (list string)),
    (exists filled,
        Notion.fillHapticRequest modelVersion maxItems effects request = inl filled) <->
    Forall (acceptedEffects request maxItems) effects.
Proof.
  intros modelVersion maxItems effects request; split.
  - intros [filled Hfill]; eapply fillHapticRequest_accepted, Hfill.
  - intros Hall; eexists; apply fillHapticRequest_accepts, Hall.
Qed.

(** X2: a request that went through is the platform's request with the
    caller's entries written over it: the motors the caller named carry the
    caller's effects, the others keep what the platform put there. *)
Theorem fillHapticRequest_result :
  forall (modelVersion : string) (maxItems : nat)
         (effects : list (string * list string))
         (request filled : gmap string (list string)),
    NoDup effects.*1 ->
    Notion.fillHapticRequest modelVersion maxItems effects request = inl filled ->
    filled = list_to_map effects ∪ request /\
    dom filled = dom request /\
    (forall key singleMotorEffects,
        (key, singleMotorEffects) ∈ effects -> filled !! key = Some singleMotorEffects) /\
    (forall key, key ∉ effects.*1 -> filled !! key = request !! key).
Proof.
  intros modelVersion maxItems effects request filled Hnodup Hfill.
  assert (Hunion : filled = list_to_map effects ∪ request).
  { revert request filled Hnodup Hfill.
    induction effects as [|[key singleMotorEffects] rest IH];
      intros request filled Hnodup Hfill.
    - cbn in Hfill; injection Hfill as <-. cbn. rewrite (left_id_L ∅ (∪)); reflexivity.
    - cbn [Notion.fillHapticRequest] in Hfill.
      destruct (bool_decide (key ∈ dom request)); cbn [negb] in Hfill; [|discriminate].
      destruct (maxItems <? length singleMotorEffects)%nat; [discriminate|].
      cbn in Hnodup; apply NoDup_cons in Hnodup as [Hfresh Hnodup].
      rewrite (IH _ _ Hnodup Hfill); cbn [list_to_map foldr].
      rewrite <- insert_union_l; cbn [fst snd].
      symmetry; apply insert_union_r, not_elem_of_list_to_map_1, Hfresh. }
  split; [exact Hunion|split; [|split]].
  - eapply fillHapticRequest_dom; exact Hfill.
  - intros key singleMotorEffects Hin; rewrite Hunion.
    apply lookup_union_Some_l, elem_of_list_to_map_1; assumption.
  - intros key Hkey; rewrite Hunion.
    apply lookup_union_r, not_elem_of_list_to_map_1, Hkey.
Qed.

Lemma fillHapticRequest_result_witness :
  let platform := @getPlatformHapticMotors Scenario.utils "3" in
  let filled := <["P7" := ["tripleClick100"]]> platform in
  Notion.fillHapticRequest "3" 7 Lab.tripleClick platform = inl filled /\
  filled = list_to_map Lab.tripleClick ∪ platform.
Proof.
  assert (Hnodup : NoDup Lab.tripleClick.*1) by (cbn; apply NoDup_singleton).
  assert (Hfill : Notion.fillHapticRequest "3" 7 Lab.tripleClick
                    (@getPlatformHapticMotors Scenario.utils "3") =
                  inl (<["P7" := ["tripleClick100"]]>
                         (@getPlatformHapticMotors Scenario.utils "3")))
    by reflexivity.
  split; [exact Hfill|].
  exact (proj1 (fillHapticRequest_result "3" 7 Lab.tripleClick _ _ Hnodup Hfill)).
Defined.

(** X3: a request that is refused is refused for its first entry that names no
    motor of the platform, or queues more than [maxItems] effects; the
    error says which of the two, the location being checked first. *)
Theorem fillHapticRequest_error :
  forall (modelVersion : string) (maxItems : nat)
         (effects : list (string * list string))
         (request : gmap string (list string)) (e : Error),
    Notion.fillHapticRequest modelVersion maxItems effects request = inr e ->
    exists before key singleMotorEffects after,
      effects = (before ++ (key, singleMotorEffects) :: after)%list /\
      Forall (acceptedEffects request maxItems) before /\
      (((key ∉ dom request) /\ e = errors.locationNotFound key modelVersion) \/
       (key ∈ dom request /\ (maxItems < length singleMotorEffects)%nat /\
        e = errors.exceededMaxItems maxItems)).
Proof.
  intros modelVersion maxItems effects.
  induction effects as [|[key singleMotorEffects] rest IH]; intros request e Hfill.
  - discriminate.
  - cbn [Notion.fillHapticRequest] in Hfill.
    destruct (bool_decide (key ∈ dom request)) eqn:Hkey; cbn [negb] in Hfill.
    + apply bool_decide_eq_true in Hkey.
      destruct (Nat.ltb_spec maxItems (length singleMotorEffects)) as [Hlt|Hle].
      * injection Hfill as <-.
        exists [], key, singleMotorEffects, rest; repeat split; [constructor|].
        right; repeat split; assumption.
      * destruct (IH _ _ Hfill)
          as (before & key' & effects' & after & -> & Hbefore & Hwhy).
        assert (Hdom : dom (<[key:=singleMotorEffects]> request) = dom request).
        { rewrite dom_insert_L.
          apply subseteq_union_1_L, singleton_subseteq_l; exact Hkey. }
        exists ((key, singleMotorEffects) :: before), key', effects', after.
        split; [reflexivity|split].
        -- constructor; [split; assumption|].
           eapply Forall_impl; [exact Hbefore|].
           intros entry [Hin Hlen]; split; [rewrite <- Hdom; exact Hin|exact Hlen].
        -- rewrite Hdom in Hwhy; exact Hwhy.
    + apply bool_decide_eq_false in Hkey.
      injection Hfill as <-.
      exists [], key, singleMotorEffects, rest; repeat split; [constructor|].
      left; split; [exact Hkey|reflexivity].
Qed.

Lemma fillHapticRequest_error_witness :
  exists before key singleMotorEffects after,
    [("P7", ["a"]); ("Fz", ["b"]); ("P8", ["c"])] =
      (before ++ (key, singleMotorEffects) :: after)%list /\
    Forall (acceptedEffects (@getPlatformHapticMotors Scenario.utils "3") 7) before /\
    (((key ∉ dom (@getPlatformHapticMotors Scenario.utils "3")) /\
      errors.locationNotFound "Fz" "3" = errors.locationNotFound key "3") \/
     (key ∈ dom (@getPlatformHapticMotors Scenario.utils "3") /\
      (7 < length singleMotorEffects)%nat /\
      errors.locationNotFound "Fz" "3" = errors.exceededMaxItems 7)).
Proof.
  exact (fillHapticRequest_error "3" 7
           [("P7", ["a"]); ("Fz", ["b"]); ("P8", ["c"])]
           (@getPlatformHapticMotors Scenario.utils "3")
           (errors.locationNotFound "Fz" "3") eq_refl).
Defined.

(** ** What gets dispatched *)

Lemma websocket_calls_app (l1 l2 : list Call) :
  websocket_calls (l1 ++ l2) = (websocket_calls l1 ++ websocket_calls l2)%list.
Proof.
  induction l1 as [|c l1 IH]; simpl; [reflexivity|].
  destruct c; simpl; rewrite IH; reflexivity.
Qed.

Lemma timesyncs_constructed_app (l1 l2 : list Call) :
  timesyncs_constructed (l1 ++ l2) =
  (timesyncs_constructed l1 + timesyncs_constructed l2)%nat.
Proof.
  induction l1 as [|c l1 IH]; simpl; [reflexivity|].
  destruct c; simpl; rewrite IH; reflexivity.
Qed.

(** X4: [haptics] dispatches nothing, or one "haptics/queue" action: then the
    client knew the selected device, its model supports haptics, every
    entry of the caller names a motor of that model with at most 7 effects,
    and the request sent has the motors of the model, no more and no less. *)
Theorem haptics_dispatches_only_accepted_requests :
  forall `{Ipk} `{OAuth} `{Utils}
         (effects : list (string * list string)) (n : Notion.t) (w : World),
    let r := invoke (op_haptics effects) (n, w) in
    dispatched (log (snd (snd r))) = dispatched (log w) \/
    exists device request,
      selectedDevice (session w) <> None /\
      getSelectedDevice_reply w = Fulfilled (Some device) /\
      supportsHaptics (modelVersion device) = true /\
      Forall (acceptedEffects (getPlatformHapticMotors (modelVersion device)) 7)
             effects /\
      dom request = dom (getPlatformHapticMotors (modelVersion device)) /\
      fst r = Delegates (firebase_dispatchAction (hapticsAction request)) /\
      dispatched (log (snd (snd r))) =
        (dispatched (log w) ++ [hapticsAction request])%list.
Proof.
  intros Hi Ho Hu effects n w r; subst r; unfold_methods.
  destruct (selectedDevice (session w)) as [d|] eqn:Hdev; cbn; [|left; reflexivity].
  destruct (validateOAuthScopeForFunctionName _ "getSelectedDevice") as [[|] e0];
    cbn; [left; reflexivity|].
  destruct (getSelectedDevice_reply w) as [[device|]|err] eqn:Hreply; cbn;
    rewrite ?dispatched_app; cbn; rewrite ?app_nil_r; try (left; reflexivity).
  destruct (supportsHaptics (modelVersion device)) eqn:Hsupport; cbn;
    rewrite ?dispatched_app; cbn; rewrite ?app_nil_r; [|left; reflexivity].
  destruct (Notion.fillHapticRequest _ _ _ _) as [request|err] eqn:Hfill; cbn;
    rewrite ?dispatched_app; cbn; rewrite ?app_nil_r; [|left; reflexivity].
  rewrite Hdev; cbn.
  destruct (validateOAuthScopeForAction _ _) as [[|] e1]; cbn;
    rewrite ?dispatched_app; cbn; rewrite ?app_nil_r; [left; reflexivity|].
  right; exists device, request.
  split; [discriminate|split; [reflexivity|split; [exact Hsupport|]]].
  split; [eapply fillHapticRequest_accepted; exact Hfill|].
  split; [eapply fillHapticRequest_dom; exact Hfill|].
  split; reflexivity.
Qed.

(** X5: with no device selected, no method of the [Notion] class dispatches
    an action: [dispatchAction], [addMarker], [haptics] and the three
    [training] functions all test [didSelectDevice()] first.  The client's
    own [actions.dispatch] has no such test: it hands its action to the
    backend whether a device is selected or not. *)
Theorem no_dispatch_without_device :
  forall `{Ipk} `{OAuth} `{Utils} (op : Operation) (n : Notion.t) (w : World),
    selectedDevice (session w) = None ->
    dispatched (log (snd (snd (invoke op (n, w))))) =
    (dispatched (log w) ++
     match op with
     | op_api_actions_dispatch a => [a]
     | _ => []
     end)%list.
Proof.
  intros Hi Ho Hu op n w Hdev.
  destruct op; unfold_methods; rewrite ?Hdev; cbn; split_cases; cbn;
    rewrite ?dispatched_app; cbn; rewrite ?app_nil_r; reflexivity.
Qed.

Lemma no_dispatch_without_device_witness :
  let n := fst (Notion.new noOptions Scenario.worldNoDevice) in
  let marker := markerAction "eyes-closed" (Qc_of_Z 1000) in
  dispatched (log (snd (snd
    (@invoke Scenario.ipk Scenario.oauth Scenario.utils
       (op_training_record Scenario.leftHandPinch) (n, Scenario.worldNoDevice))))) =
  [] /\
  dispatched (log (snd (snd
    (@invoke Scenario.ipk Scenario.oauth Scenario.utils
       (op_api_actions_dispatch marker) (n, Scenario.worldNoDevice))))) =
  [marker].
Proof.
  intros n marker; split.
  - rewrite (no_dispatch_without_device
               (H := Scenario.ipk) (H0 := Scenario.oauth) (H1 := Scenario.utils)
               (op_training_record Scenario.leftHandPinch) n
               Scenario.worldNoDevice eq_refl).
    reflexivity.
  - rewrite (no_dispatch_without_device
               (H := Scenario.ipk) (H0 := Scenario.oauth) (H1 := Scenario.utils)
               (op_api_actions_dispatch marker) n
               Scenario.worldNoDevice eq_refl).
    reflexivity.
Defined.

(** X6: [addMarker] dispatches nothing, or one "marker/add" action that
    carries the caller's label, which is not empty. *)
Theorem addMarker_dispatches_labelled_marker :
  forall `{Ipk} `{OAuth} `{Utils}
         (label : option string) (n : Notion.t) (w : World),
    let r := invoke (op_addMarker label) (n, w) in
    dispatched (log (snd (snd r))) = dispatched (log w) \/
    exists text stamp,
      label = Some text /\ text <> "" /\
      selectedDevice (session w) <> None /\
      fst r = Delegates (firebase_dispatchAction (markerAction text stamp)) /\
      dispatched (log (snd (snd r))) =
        (dispatched (log w) ++ [markerAction text stamp])%list.
Proof.
  intros Hi Ho Hu label n w r; subst r; unfold_methods.
  destruct (selectedDevice (session w)) as [d|] eqn:Hdev; cbn; [|left; reflexivity].
  destruct label as [text|]; cbn; [|left; reflexivity].
  destruct (String.eqb_spec text "") as [->|Hne]; cbn; [left; reflexivity|].
  destruct (Options.timesync (fields (ApiClient.options (Notion.api n)))); cbn.
  - destruct (ApiClient.timesync (Notion.api n)); cbn; [|left; reflexivity].
    rewrite Hdev; cbn.
    destruct (validateOAuthScopeForAction _ _) as [[|] e1]; cbn;
      rewrite ?dispatched_app; cbn; rewrite ?app_nil_r; [left; reflexivity|].
    right; exists text, (timesync_timestamp w); repeat split; auto; discriminate.
  - rewrite Hdev; cbn.
    destruct (validateOAuthScopeForAction _ _) as [[|] e1]; cbn;
      rewrite ?dispatched_app; cbn; rewrite ?app_nil_r; [left; reflexivity|].
    right; exists text, (Qc_of_Z (clock w)); repeat split; auto; discriminate.
Qed.

(** ** The on-device socket *)

Section SocketFacts.
Context `{Ipk} `{OAuth} `{Utils}.

(** What one operation sends to the on-device client. *)
Lemma invoke_websocket_calls op n w :
  websocket_calls (log (snd (snd (invoke op (n, w))))) =
  (websocket_calls (log w) ++
   match op with
   | op_api_metrics_on s callback =>
       if ApiClient.shouldRerouteToDevice (Notion.api n) (metric s)
       then [websocket_onMetric s callback]
       else []
   | op_disconnect =>
       match ApiClient.onDeviceSocket (Notion.api n) with
       | Some _ => [websocket_disconnect]
       | None => []
       end
   | _ => []
   end)%list.
Proof.
  destruct op; unfold_methods; split_cases; cbn;
    rewrite ?websocket_calls_app; cbn; rewrite ?app_nil_r; reflexivity.
Qed.

Lemma run_without_socket ops : forall n w,
  ApiClient.onDeviceSocket (Notion.api n) = None ->
  websocket_calls (log (snd (snd (run ops (n, w))))) = websocket_calls (log w).
Proof.
  induction ops as [|op rest IH]; intros n w Hnone; [reflexivity|].
  rewrite run_cons; cbn [fst snd].
  pose proof (invoke_websocket_calls op n w) as Hstep.
  destruct (invoke_wiring op n w) as [(_ & _ & Hsock) _].
  destruct (invoke op (n, w)) as [o [n1 w1]]; cbn [fst snd] in *.
  rewrite IH by (rewrite Hsock; exact Hnone).
  rewrite Hstep; unfold ApiClient.shouldRerouteToDevice; rewrite Hnone.
  destruct op; cbn; rewrite ?app_nil_r; reflexivity.
Qed.

End SocketFacts.

(** X7: only two operations ever talk to the on-device client: [metrics.on],
    for a metric that is rerouted, and [disconnect], when the socket exists.
    In particular [metrics.subscribe], [metrics.unsubscribe] and
    [metrics.next] go to the cloud client whatever the route. *)
Theorem websocket_receives_only_listeners_and_disconnect :
  forall `{Ipk} `{OAuth} `{Utils} (op : Operation) (n : Notion.t) (w : World),
    websocket_calls (log (snd (snd (invoke op (n, w))))) =
    (websocket_calls (log w) ++
     match op with
     | op_api_metrics_on s callback =>
         if ApiClient.shouldRerouteToDevice (Notion.api n) (metric s)
         then [websocket_onMetric s callback]
         else []
     | op_disconnect =>
         match ApiClient.onDeviceSocket (Notion.api n) with
         | Some _ => [websocket_disconnect]
         | None => []
         end
     | _ => []
     end)%list.
Proof. intros; apply invoke_websocket_calls. Qed.

(** X8: an instance constructed without [onDeviceSocketUrl] (or with an empty
    one) never calls the on-device client, whatever is done with it. *)
Theorem no_socket_url_no_websocket_calls :
  forall `{Ipk} `{OAuth} `{Utils}
         (opts : UserOptions) (w0 : World) (ops : list Operation),
    truthy (Options.u_onDeviceSocketUrl opts) = false ->
    websocket_calls (log (snd (instance_after opts w0 ops))) =
    websocket_calls (log w0).
Proof.
  intros Hi Ho Hu opts w0 ops Hfalsy.
  unfold instance_after.
  destruct (new_wiring opts w0) as (_ & _ & Hsock & _).
  assert (Hlog : websocket_calls (log (snd (Notion.new opts w0))) =
                 websocket_calls (log w0)).
  { unfold Notion.new, ApiClient.new; cbn [fields Object_freeze].
    rewrite truthy_spread, Hfalsy; cbn.
    rewrite websocket_calls_app; cbn; rewrite app_nil_r; reflexivity. }
  destruct (Notion.new opts w0) as [n0 w1]; cbn [fst snd] in *.
  rewrite run_without_socket; [exact Hlog|].
  destruct (ApiClient.onDeviceSocket (Notion.api n0)) as [ws|]; [|reflexivity].
  assert (Htrue : truthy (Options.u_onDeviceSocketUrl opts) = true)
    by (apply Hsock; eauto).
  congruence.
Qed.

Lemma no_socket_url_no_websocket_calls_witness :
  websocket_calls (log (snd
    (@instance_after Scenario.ipk Scenario.oauth Scenario.utils
       noOptions Lab.world
       [op_api_metrics_on Scenario.brainwavesRaw 0; op_disconnect]))) = [].
Proof.
  exact (no_socket_url_no_websocket_calls
           (H := Scenario.ipk) (H0 := Scenario.oauth) (H1 := Scenario.utils)
           noOptions Lab.world
           [op_api_metrics_on Scenario.brainwavesRaw 0; op_disconnect] eq_refl).
Defined.

(** X9: [metrics.subscribe] and [metrics.on] agree on the route: the listener
    is attached at the on-device client exactly when the subscription was
    announced with the websocket server type, and at the cloud client exactly
    when it was announced with the firebase one.  The announcement itself
    always goes to the cloud client, and carries the caller's metric, labels
    and atomic flag unchanged. *)
Theorem subscribe_and_on_agree :
  forall `{Ipk} `{OAuth} `{Utils}
         (s : Subscription) (callback : nat) (n : Notion.t) (w : World),
    let announced := invoke (op_api_metrics_subscribe s) (n, w) in
    let attached := invoke (op_api_metrics_on s callback) (n, w) in
    exists p,
      fst announced = Delegates (firebase_subscribeToMetric p) /\
      metric p = metric s /\ labels p = labels s /\ atomic p = atomic s /\
      (serverType p = Some WebsocketServer <->
       fst attached = Delegates (websocket_onMetric s callback)) /\
      (serverType p = Some FirebaseServer <->
       fst attached = Delegates (firebase_onMetric s callback)).
Proof.
  intros Hi Ho Hu s callback n w announced attached; subst announced attached.
  rewrite invoke_subscribe, invoke_on; cbn [fst].
  exists (physical (Notion.api n) s); unfold physical, route; cbn.
  destruct (ApiClient.shouldRerouteToDevice (Notion.api n) (metric s));
    repeat split; intros; try reflexivity; try discriminate.
Qed.

(** X10: [disconnect] closes the on-device socket first, when there is one, and
    then the cloud client; it returns what the cloud client returns.  The
    socket object stays in place: a metric that was rerouted before
    [disconnect] is rerouted after it. *)
Theorem disconnect_keeps_routing :
  forall `{Ipk} `{OAuth} `{Utils}
         (opts : UserOptions) (w0 : World) (ops : list Operation) (name : string),
    let st := instance_after opts w0 ops in
    let r := invoke op_disconnect st in
    fst r = Delegates firebase_disconnect /\
    log (snd (snd r)) =
      (log (snd st) ++
       if truthy (Options.u_onDeviceSocketUrl opts)
       then [websocket_disconnect; firebase_disconnect]
       else [firebase_disconnect])%list /\
    route (Notion.api (fst (snd r))) name = route (Notion.api (fst st)) name.
Proof.
  intros Hi Ho Hu opts w0 ops name st r.
  destruct (instance_after_wiring opts w0 ops) as (_ & _ & _ & Hsock & _).
  fold st in Hsock; subst r; destruct st as [n w]; cbn [fst snd] in *.
  unfold_methods; unfold route, ApiClient.shouldRerouteToDevice.
  destruct (ApiClient.onDeviceSocket (Notion.api n)) as [ws|] eqn:Hws; cbn.
  - assert (Htrue : truthy (Options.u_onDeviceSocketUrl opts) = true)
      by (apply Hsock; eauto).
    rewrite Htrue, Hws, <- app_assoc; repeat split.
  - destruct (truthy (Options.u_onDeviceSocketUrl opts)) eqn:Hurl.
    + assert (Hsome : is_Some (@None WebsocketClient)) by (apply Hsock; reflexivity).
      destruct Hsome as [? ?]; discriminate.
    + rewrite Hws; repeat split.
Qed.

(** ** The [Timesync] object *)

Section TimesyncFacts.
Context `{Ipk} `{OAuth} `{Utils}.

(** One operation and [this.timesync]: it is assigned by a [login] that
    resolved with a user under [options.timesync], and by nothing else. *)
Lemma invoke_timesync op n w :
  let n' := fst (snd (invoke op (n, w))) in
  let w' := snd (snd (invoke op (n, w))) in
  (ApiClient.timesync (Notion.api n') = ApiClient.timesync (Notion.api n) /\
   timesyncs_constructed (log w') = timesyncs_constructed (log w)) \/
  (exists c u,
      op = op_login c /\ login_reply w = Fulfilled (Some u) /\
      Options.timesync (fields (ApiClient.options (Notion.api n))) = true /\
      ApiClient.timesync (Notion.api n') = Some timesync_instance /\
      timesyncs_constructed (log w') = S (timesyncs_constructed (log w))).
Proof.
  cbv zeta.
  destruct op; unfold_methods;
    try (left; split_cases; cbn; rewrite ?timesyncs_constructed_app; cbn;
         (split; [congruence | lia])).
  cbn.
  destruct (login_reply w) as [[u|]|e] eqn:Hreply; cbn;
    rewrite ?timesyncs_constructed_app; cbn.
  - destruct (Options.timesync (fields (ApiClient.options (Notion.api n)))) eqn:Hopt;
      cbn; rewrite ?timesyncs_constructed_app; cbn.
    + right; exists credentials, u; repeat split; lia.
    + left; split; [reflexivity | lia].
  - left; split; [reflexivity | lia].
  - left; split; [reflexivity | lia].
Qed.

Lemma run_timesync ops : forall n w,
  let n' := fst (snd (run ops (n, w))) in
  let w' := snd (snd (run ops (n, w))) in
  (Options.timesync (fields (ApiClient.options (Notion.api n))) = false ->
   ApiClient.timesync (Notion.api n') = ApiClient.timesync (Notion.api n) /\
   timesyncs_constructed (log w') = timesyncs_constructed (log w)) /\
  (ApiClient.timesync (Notion.api n') <> ApiClient.timesync (Notion.api n) ->
   exists c, op_login c ∈ ops).
Proof.
  induction ops as [|op rest IH]; intros n w.
  - cbn; split; [auto | intros Hne; contradiction Hne; reflexivity].
  - rewrite run_cons; cbn [fst snd].
    pose proof (invoke_timesync op n w) as Hstep.
    destruct (invoke_wiring op n w) as [(_ & Hopts & _) _].
    destruct (invoke op (n, w)) as [o [n1 w1]]; cbn [fst snd] in *.
    destruct (IH n1 w1) as [Hoff Hchange]; cbn zeta in *.
    split.
    + intros Hfalse.
      destruct Hoff as [Hts Hcount]; [rewrite Hopts; exact Hfalse|].
      destruct Hstep as [[Hsame Hsame']|(c & u & _ & _ & Hopt & _)]; [|congruence].
      split; congruence.
    + intros Hne.
      destruct Hstep as [[Hsame _]|(c & u & -> & _)].
      * destruct Hchange as [c Hc]; [congruence|].
        exists c; apply elem_of_cons; right; exact Hc.
      * exists c; apply elem_of_cons; left; reflexivity.
Qed.

End TimesyncFacts.

(** X11: the [Timesync] object of the client exists only on an instance
    constructed with [timesync: true] on which [login] was called: without
    the option none is ever constructed, whatever is done with the
    instance. *)
Theorem timesync_object_needs_option_and_login :
  forall `{Ipk} `{OAuth} `{Utils}
         (opts : UserOptions) (w0 : World) (ops : list Operation),
    let st := instance_after opts w0 ops in
    (Options.timesync (spread defaultOptions opts) = false ->
     ApiClient.timesync (Notion.api (fst st)) = None /\
     timesyncs_constructed (log (snd st)) = timesyncs_constructed (log w0)) /\
    (is_Some (ApiClient.timesync (Notion.api (fst st))) ->
     Options.timesync (spread defaultOptions opts) = true /\
     exists c, op_login c ∈ ops).
Proof.
  intros Hi Ho Hu opts w0 ops st; subst st; unfold instance_after.
  assert (Hnew : ApiClient.timesync (Notion.api (fst (Notion.new opts w0))) = None /\
                 ApiClient.options (Notion.api (fst (Notion.new opts w0))) =
                   Object_freeze (spread defaultOptions opts) /\
                 timesyncs_constructed (log (snd (Notion.new opts w0))) =
                   timesyncs_constructed (log w0)).
  { unfold Notion.new, ApiClient.new; cbn [fields Object_freeze].
    destruct (truthy _); cbn; rewrite ?timesyncs_constructed_app; cbn;
      repeat split; lia. }
  destruct Hnew as (Hnone & Hopts & Hcount).
  destruct (Notion.new opts w0) as [n0 w1]; cbn [fst snd] in *.
  destruct (run_timesync ops n0 w1) as [Hoff Hchange]; cbn zeta in *.
  rewrite Hopts, Hnone in *; cbn [fields Object_freeze] in *.
  assert (Hoff' : Options.timesync (spread defaultOptions opts) = false ->
                  ApiClient.timesync (Notion.api (fst (snd (run ops (n0, w1))))) = None /\
                  timesyncs_constructed (log (snd (snd (run ops (n0, w1))))) =
                  timesyncs_constructed (log w0)).
  { intros Hfalse; destruct (Hoff Hfalse) as [Hts Hc]; split; congruence. }
  split; [exact Hoff'|].
  intros [ts Hts]; split.
  - destruct (Options.timesync (spread defaultOptions opts)); [reflexivity|].
    destruct (Hoff' eq_refl) as [Hts' _]; congruence.
  - apply Hchange; rewrite Hts; discriminate.
Qed.

Lemma timesync_object_needs_option_and_login_witness :
  let st := @instance_after Scenario.ipk Scenario.oauth Scenario.utils
              Lab.withTimesync Lab.world [op_login Lab.credentials] in
  is_Some (ApiClient.timesync (Notion.api (fst st))) /\
  exists c, op_login c ∈ [op_login Lab.credentials].
Proof.
  assert (Hsome : is_Some (ApiClient.timesync (Notion.api (fst
            (@instance_after Scenario.ipk Scenario.oauth Scenario.utils
               Lab.withTimesync Lab.world [op_login Lab.credentials])))))
    by (eexists; reflexivity).
  split; [exact Hsome|].
  exact (proj2 (proj2 (timesync_object_needs_option_and_login
                  (H := Scenario.ipk) (H0 := Scenario.oauth) (H1 := Scenario.utils)
                  Lab.withTimesync Lab.world [op_login Lab.credentials]) Hsome)).
Defined.

(** X12: on an instance constructed with [timesync: true], the [timestamp]
    getter throws a [TypeError] until a [login] has resolved with a user:
    right after construction, and still after a [login] that failed or
    resolved with no user.  After a [login] that resolved with a user it is
    the timestamp of the [Timesync] object. *)
Theorem timestamp_needs_login_when_timesync_on :
  forall `{Ipk} `{OAuth} `{Utils}
         (opts : UserOptions) (w0 : World) (c : Credentials),
    Options.timesync (spread defaultOptions opts) = true ->
    let before := invoke op_api_timestamp (instance_after opts w0 []) in
    let after := invoke op_api_timestamp (instance_after opts w0 [op_login c]) in
    let undefined := Throws (JsTypeError "Cannot read properties of undefined") in
    fst before = undefined /\
    match login_reply w0 with
    | Fulfilled (Some u) => fst after = Returns (JsNumber (timesync_timestamp w0))
    | _ => fst after = undefined
    end.
Proof.
  intros Hi Ho Hu opts w0 c Hon before after undefined.
  subst before after undefined; unfold instance_after.
  rewrite run_cons; cbn [run ret fst snd].
  unfold Notion.new, ApiClient.new; cbn [fields Object_freeze].
  remember (spread defaultOptions opts) as o eqn:Ho'; clear Ho'.
  destruct (truthy _); unfold_methods; cbn; rewrite Hon; cbn;
    (split; [reflexivity|]);
    destruct (login_reply w0) as [[u|]|e]; cbn; rewrite ?Hon; cbn; rewrite ?Hon;
    reflexivity.
Qed.

Lemma timestamp_needs_login_when_timesync_on_witness :
  fst (@invoke Scenario.ipk Scenario.oauth Scenario.utils op_api_timestamp
         (@instance_after Scenario.ipk Scenario.oauth Scenario.utils
            Lab.withTimesync Lab.world [])) =
    Throws (JsTypeError "Cannot read properties of undefined") /\
  fst (@invoke Scenario.ipk Scenario.oauth Scenario.utils op_api_timestamp
         (@instance_after Scenario.ipk Scenario.oauth Scenario.utils
            Lab.withTimesync Lab.world [op_login Lab.credentials])) =
    Returns (JsNumber (Qc_of_Z 2010)).
Proof.
  exact (timestamp_needs_login_when_timesync_on
           (H := Scenario.ipk) (H0 := Scenario.oauth) (H1 := Scenario.utils)
           Lab.withTimesync Lab.world Lab.credentials eq_refl).
Defined.

(** ** More on local mode *)

(** X13: [enableLocalMode] with anything but a boolean rejects with a
    [TypeError]; the flag is untouched and nothing is called. *)
Theorem enableLocalMode_rejects_non_boolean :
  forall `{Ipk} `{OAuth} `{Utils} (v : JsValue) (n : Notion.t) (w : World),
    typeof v <> "boolean" ->
    invoke (op_enableLocalMode v) (n, w) =
    (Rejects (Some (JsTypeError "enableLocalMode can only accept a boolean")),
     (n, w)).
Proof.
  intros Hi Ho Hu v n w Htype; unfold_methods.
  destruct (String.eqb_spec (typeof v) "boolean") as [Heq|_];
    [contradiction | reflexivity].
Qed.

Lemma enableLocalMode_rejects_non_boolean_witness :
  let n := fst (Notion.new noOptions Lab.world) in
  @invoke Scenario.ipk Scenario.oauth Scenario.utils
    (op_enableLocalMode (JsString "true")) (n, Lab.world) =
  (Rejects (Some (JsTypeError "enableLocalMode can only accept a boolean")),
   (n, Lab.world)).
Proof.
  apply (enableLocalMode_rejects_non_boolean
           (H := Scenario.ipk) (H0 := Scenario.oauth) (H1 := Scenario.utils)
           (JsString "true")).
  discriminate.
Defined.

(** X14: [enableLocalMode(true)] reads the socket URL of the device once and
    resolves exactly when the read succeeded with a non-empty URL: then the
    flag is on and [true] was emitted.  When the read itself fails, the
    promise is rejected with the error of the read and the instance is
    left as it was. *)
Theorem enableLocalMode_true_outcomes :
  forall `{Ipk} `{OAuth} `{Utils} (n : Notion.t) (w : World),
    let r := invoke (op_enableLocalMode (JsBoolean true)) (n, w) in
    log (snd (snd r)) =
      (log w ++ [api_member "onceNamespace" "context/socketUrl"])%list /\
    (fst r = Resolves (JsBoolean true) <->
     exists url, socketUrl_reply w = Fulfilled url /\ truthy url = true) /\
    (fst r = Resolves (JsBoolean true) ->
     localModeEnabled (fst (snd r)) = true /\
     emitted (Notion._localModeSubject (fst (snd r))) =
       (emitted (Notion._localModeSubject n) ++ [true])%list) /\
    (forall e, socketUrl_reply w = Failed e ->
               fst r = Rejects (Some e) /\ fst (snd r) = n).
Proof.
  intros Hi Ho Hu n w r; subst r; unfold_methods; cbn.
  destruct (socketUrl_reply w) as [url|e]; cbn.
  - destruct (truthy url) eqn:Hurl; cbn.
    + repeat split; eauto; intros; discriminate.
    + split; [reflexivity|split; [|split]].
      * split; [discriminate|].
        intros (url' & [= <-] & Htrue); congruence.
      * discriminate.
      * intros; discriminate.
  - split; [reflexivity|split; [|split]].
    + split; [discriminate|intros (url & Hf & _); discriminate].
    + discriminate.
    + intros e' [= <-]; split; reflexivity.
Qed.

(** X15: no operation touches the local-mode subject but [enableLocalMode] with
    a boolean [b]: it then pushes exactly [b], and it pushes [true] only
    when the device advertised a socket URL. *)
Theorem local_mode_changes_only_through_enableLocalMode :
  forall `{Ipk} `{OAuth} `{Utils} (op : Operation) (n : Notion.t) (w : World),
    let n' := fst (snd (invoke op (n, w))) in
    Notion._localModeSubject n' = Notion._localModeSubject n \/
    exists b,
      op = op_enableLocalMode (JsBoolean b) /\
      Notion._localModeSubject n' = next b (Notion._localModeSubject n) /\
      (b = true ->
       exists url, socketUrl_reply w = Fulfilled url /\ truthy url = true).
Proof.
  intros Hi Ho Hu op n w; cbv zeta.
  destruct op; unfold_methods;
    try (left; split_cases; reflexivity).
  destruct shouldEnable as [[|]| | | | | |]; cbn; try (left; reflexivity).
  - destruct (socketUrl_reply w) as [url|e]; cbn; [|left; reflexivity].
    destruct (truthy url) eqn:Hurl; cbn; [|left; reflexivity].
    right; exists true; repeat split; eauto.
  - right; exists false; repeat split; intros; discriminate.
Qed.

(** ** Scopes *)

(** X16: the operations outside [consultsValidator] never ask the validators:
    they behave the same whatever the validators would answer.  Among them
    are the three [training] functions, which dispatch their action
    unchecked, [skill], [enableLocalMode], [login] and [getDevices]. *)
Theorem unguarded_operations_ignore_validators :
  forall `{Ipk} `{Utils} (oauth1 oauth2 : OAuth)
         (op : Operation) (n : Notion.t) (w : World),
    consultsValidator op = false ->
    @invoke _ oauth1 _ op (n, w) = @invoke _ oauth2 _ op (n, w).
Proof.
  intros Hi Hu oauth1 oauth2 op n w Hop.
  destruct op; try discriminate Hop; reflexivity.
Qed.

Lemma unguarded_operations_ignore_validators_witness :
  let n := fst (Notion.new noOptions Scenario.world) in
  let denyAll : OAuth :=
    {| validateOAuthScopeForFunctionName := fun _ _ => (true, None);
       validateOAuthScopeForAction := fun _ _ => (true, None) |} in
  fst (@invoke Scenario.ipk denyAll Scenario.utils
         (op_training_record Scenario.leftHandPinch) (n, Scenario.world)) =
  Returns JsUndefined /\
  length (dispatched (log (snd (snd
    (@invoke Scenario.ipk denyAll Scenario.utils
       (op_training_record Scenario.leftHandPinch) (n, Scenario.world)))))) = 1%nat.
Proof.
  cbv zeta.
  rewrite (unguarded_operations_ignore_validators
             (H := Scenario.ipk) (H0 := Scenario.utils)
             {| validateOAuthScopeForFunctionName := fun _ _ => (true, None);
                validateOAuthScopeForAction := fun _ _ => (true, None) |}
             Scenario.oauth
             (op_training_record Scenario.leftHandPinch)
             (fst (Notion.new noOptions Scenario.world)) Scenario.world eq_refl).
  split; reflexivity.
Defined.

(** X17: [haptics] and [accelerometer] wait for [getSelectedDevice()], so they
    need its scope as well as their own: when the validator refuses
    "getSelectedDevice", [accelerometer] (its own scope granted) errors its
    stream and [haptics] (a device being selected) rejects, both with the
    validator's error for "getSelectedDevice" and without having called
    anything. *)
Theorem haptics_and_accelerometer_need_getSelectedDevice_scope :
  forall `{Ipk} `{OAuth} `{Utils}
         (effects : list (string * list string)) (n : Notion.t) (w : World),
    let claims := userClaims (session w) in
    let refusal := validateOAuthScopeForFunctionName claims "getSelectedDevice" in
    fst refusal = true ->
    (fst (validateOAuthScopeForFunctionName claims "accelerometer") = false ->
     invoke op_accelerometer (n, w) = (StreamError (snd refusal), (n, w))) /\
    (selectedDevice (session w) <> None ->
     invoke (op_haptics effects) (n, w) = (Rejects (snd refusal), (n, w))).
Proof.
  intros Hi Ho Hu effects n w claims refusal Hrefused; subst refusal claims.
  unfold_methods.
  destruct (validateOAuthScopeForFunctionName _ "getSelectedDevice") as [b e] eqn:Hv;
    cbn in Hrefused; subst b; cbn [fst snd].
  split.
  - intros Hallowed.
    destruct (validateOAuthScopeForFunctionName _ "accelerometer") as [b' e'];
      cbn in Hallowed; subst b'; cbn.
    rewrite Hv; reflexivity.
  - intros Hdev.
    destruct (selectedDevice (session w)); [|contradiction]; cbn.
    rewrite Hv; reflexivity.
Qed.

Lemma haptics_and_accelerometer_need_getSelectedDevice_scope_witness :
  let n := fst (Notion.new noOptions Scenario.world) in
  @invoke Scenario.ipk Scenario.oauth Scenario.utils
    (op_haptics Lab.tripleClick) (n, Scenario.world) =
  (Rejects (Some (OAuthScopeError "read:getSelectedDevice")), (n, Scenario.world)).
Proof.
  assert (Hrefused : fst (@validateOAuthScopeForFunctionName Scenario.oauth
                            (userClaims (session Scenario.world))
                            "getSelectedDevice") = true) by reflexivity.
  destruct (haptics_and_accelerometer_need_getSelectedDevice_scope
              (H := Scenario.ipk) (H0 := Scenario.oauth) (H1 := Scenario.utils)
              Lab.tripleClick (fst (Notion.new noOptions Scenario.world))
              Scenario.world Hrefused) as [_ Hhaptics].
  intros n; apply Hhaptics; discriminate.
Defined.

(** X18: [accelerometer] asks [getMetric] for nothing, or for the one atomic
    "accelerometer" subscription: then both scope checks passed, the read of the
    selected device succeeded, and the model of that device supports the
    accelerometer, model version 1 standing in for a device that is not
    known or has no model version. *)
Theorem accelerometer_subscribes_only_on_supported_models :
  forall `{Ipk} `{OAuth} `{Utils} (n : Notion.t) (w : World),
    let r := invoke op_accelerometer (n, w) in
    let wanted :=
      {| metric := "accelerometer"; labels := getLabels "accelerometer";
         atomic := true; serverType := None |} in
    requested (log (snd (snd r))) = requested (log w) \/
    exists device,
      getSelectedDevice_reply w = Fulfilled device /\
      supportsAccel
        match device with
        | Some d => if String.eqb (modelVersion d) "" then MODEL_VERSION_1
                    else modelVersion d
        | None => MODEL_VERSION_1
        end = true /\
      fst r = Delegates (getMetric wanted) /\
      requested (log (snd (snd r))) = (requested (log w) ++ [wanted])%list.
Proof.
  intros Hi Ho Hu n w r wanted; subst r wanted; unfold_methods.
  destruct (validateOAuthScopeForFunctionName _ "accelerometer") as [[|] e0];
    cbn; [left; reflexivity|].
  destruct (validateOAuthScopeForFunctionName _ "getSelectedDevice") as [[|] e1];
    cbn; [left; reflexivity|].
  destruct (getSelectedDevice_reply w) as [device|err]; cbn;
    rewrite ?requested_app; cbn; rewrite ?app_nil_r; [|left; reflexivity].
  destruct (supportsAccel _) eqn:Hsupport; cbn;
    rewrite ?requested_app; cbn; rewrite ?app_nil_r; [|left; reflexivity].
  right; exists device; repeat split; try reflexivity.
  exact Hsupport.
Qed.
